(** * Pipeline validation harness: a shallow embedding of
      [scripts/validate-pipelines.py]

    The harness runs an external pipeline tool once per configured test
    case, checks that the expected artifacts exist, checks the top-level
    fields of JSON artifacts, prints a summary and writes a JSON report.

    The Python code is effectful: it reads the clock, launches processes,
    inspects and writes files, prints, and may raise.  The embedding makes
    this explicit with a state-and-exception monad [M] over a [World]; the
    library and operating-system calls the script makes are gathered in a
    [Host] record and every theorem holds for all hosts. *)

From Stdlib Require Import String Ascii List ZArith Bool Lia.
From Stdlib Require Import PrimFloat.
Import ListNotations.

Local Open Scope string_scope.
Local Open Scope Z_scope.

Set Warnings "-register-all".

(** ** Python values that occur in the script *)

(** The value [json.load] returns.  Python distinguishes [int] from
    [float] and keeps the insertion order of object keys. *)
Inductive json : Type :=
| JNull
| JBool (b : bool)
| JInt (z : Z)
| JFloat (f : float)
| JStr (s : string)
| JArr (items : list json)
| JObj (members : list (string * json)).

(** The exceptions that can travel through the script's own frames. *)
Inductive exn : Type :=
| KeyError (key : string)
| TypeError (msg : string)
| FileNotFoundError (path : string)
| IsADirectoryError (path : string)
| NotADirectoryError (path : string)
| YAMLError (msg : string).

(** ** The world the script runs in *)

(** What a regular file holds: arbitrary text, or the JSON text of a
    value [v] (what [json.dump(v, f)] writes and [json.load] reads back
    as [v]). *)
Inductive content : Type :=
| Text (s : string)
| JsonText (v : json).

Inductive node : Type :=
| Absent
| Directory
| File (c : content).

(** One value per [print] call of the script; the f-string arguments are
    kept as data instead of being formatted. *)
Inductive line : Type :=
| TestingPipeline (pipeline_name : string)
| PipelineLine (pipeline : string)
| ExecutionSuccessful (duration : float)
| AllExpectedFilesCreated (created_count : Z)
| MissingFiles (missing_count : Z) (files_missing : list string)
| HasAllRequiredFields (json_file : string)
| ValidationFailed (json_file : string) (cause : string)
| ExecutionFailed (duration : float)
| ErrorLine (stderr : string)
| ConfigNotFound (config_path : string)
| StartingSuite
| ConfigLine (config_path : string)
| CliLine (cli_path : string)
| SettingUp
| RunningSetup (cmd : string)
| SummaryHeader
| TotalLine (total : Z)
| PassedLine (passed : Z)
| FailedLine (failed : Z)
| AllTestsPassed
| SomeTestsFailed
| ReportSaved (output_path : string).

Record World : Type := mkWorld {
  files : string -> node;      (* the filesystem, by path *)
  clock : float;               (* what time.time() returns *)
  console : list line          (* standard output, oldest line first *)
}.

(** The world after one more line on standard output. *)
Definition say (l : line) (w : World) : World :=
  mkWorld (files w) (clock w) (console w ++ [l]).

Definition with_file (w : World) (path : string) (n : node) : World :=
  mkWorld (fun p => if String.eqb p path then n else files w p)
          (clock w) (console w).

(** ** The state-and-exception monad *)

Inductive Outcome (A : Type) : Type :=
| Return (a : A) (w : World)
| Raise (e : exn) (w : World).
Arguments Return {A} a w.
Arguments Raise {A} e w.

Definition M (A : Type) : Type := World -> Outcome A.

Definition ret {A} (a : A) : M A := fun w => Return a w.

Definition raise {A} (e : exn) : M A := fun w => Raise e w.

Definition bind {A B} (m : M A) (k : A -> M B) : M B :=
  fun w => match m w with
           | Return a w' => k a w'
           | Raise e w' => Raise e w'
           end.

Declare Scope harness_scope.
Delimit Scope harness_scope with harness.
Notation "x <- m ;; k" := (bind m (fun x => k))
  (at level 61, m at next level, right associativity) : harness_scope.
Notation "m ;; k" := (bind m (fun _ => k))
  (at level 61, right associativity) : harness_scope.
Local Open Scope harness_scope.

(** [print(...)] *)
Definition print (l : line) : M unit :=
  fun w => Return tt (say l w).

(** [time.time()] *)
Definition time_time : M float := fun w => Return (clock w) w.

(** [Path(p).exists()]: true for files and for directories. *)
Definition path_exists (p : string) : M bool :=
  fun w => Return (match files w p with Absent => false | _ => true end) w.

(** [len(l)] as a Python int. *)
Definition len {A} (l : list A) : Z := Z.of_nat (length l).

(** [sum(1 for r in l if p(r))] *)
Definition sum_ones {A} (p : A -> bool) (l : list A) : Z :=
  fold_left (fun acc r => if p r then acc + 1 else acc) l 0.

(** ** Configuration, as [yaml.safe_load] delivers it *)

(** One entry of [tests]; every key may be absent from the mapping. *)
Record CaseConfig : Type := mkCaseConfig {
  cfg_pipeline : option string;
  cfg_working_dir : option string;
  cfg_expected_outputs : option (list string);
  cfg_json_validations : option (list (string * list string))
}.

Record SuiteConfig : Type := mkSuiteConfig {
  cfg_setup : option (list string);
  cfg_tests : option (list (string * CaseConfig))
}.

(** ** Result dictionaries *)

(** The dictionary [run_pipeline] returns. *)
Record Execution : Type := mkExecution {
  success : bool;
  stdout : string;
  stderr : string;
  duration : float;
  exit_code : Z
}.

(** The dictionary [validate_outputs] returns. *)
Record OutputValidation : Type := mkOutputValidation {
  files_created : list string;
  files_missing : list string;
  total_expected : Z;
  ov_success : bool;
  created_count : Z;
  missing_count : Z
}.

(** The two shapes of dictionary [validate_json_output] returns. *)
Inductive JsonValidation : Type :=
| JsonError (jv_success : bool) (error : string)
| JsonFields (jv_success : bool) (missing_fields : list string)
             (data_keys : list string) (data_type : string).

Definition jv_success (v : JsonValidation) : bool :=
  match v with JsonError s _ => s | JsonFields s _ _ _ => s end.

(** [v.get("error")] *)
Definition jv_error (v : JsonValidation) : option string :=
  match v with JsonError _ e => Some e | JsonFields _ _ _ _ => None end.

(** [v.get("missing_fields")] *)
Definition jv_missing_fields (v : JsonValidation) : option (list string) :=
  match v with JsonError _ _ => None | JsonFields _ m _ _ => Some m end.

(** [v.get("data_keys")] *)
Definition jv_data_keys (v : JsonValidation) : option (list string) :=
  match v with JsonError _ _ => None | JsonFields _ _ k _ => Some k end.

(** The dictionary [test_pipeline] returns; the last two keys are only
    set on some paths. *)
Record TestResult : Type := mkTestResult {
  name : string;
  pipeline : string;
  execution : Execution;
  output_validation : option OutputValidation;
  json_validations : option (list (string * JsonValidation))
}.

Definition set_output_validation (t : TestResult) (v : OutputValidation)
  : TestResult :=
  mkTestResult (name t) (pipeline t) (execution t) (Some v)
               (json_validations t).

Definition set_json_validations (t : TestResult)
  (v : list (string * JsonValidation)) : TestResult :=
  mkTestResult (name t) (pipeline t) (execution t) (output_validation t)
               (Some v).

(** [d[k] = v] on an insertion-ordered dictionary: an existing key keeps
    its position, a new key goes last. *)
Fixpoint dict_set {V} (d : list (string * V)) (k : string) (v : V)
  : list (string * V) :=
  match d with
  | [] => [(k, v)]
  | (k', v') :: rest =>
      if String.eqb k' k then (k', v) :: rest
      else (k', v') :: dict_set rest k v
  end.

(** The validator object: [__init__] sets both attributes and no method
    assigns to either afterwards. *)
Record PipelineValidator : Type := mkPipelineValidator {
  cli_path : string;
  test_results : list TestResult
}.

Definition init (teambeam_cli : string) : PipelineValidator :=
  mkPipelineValidator teambeam_cli [].

Definition default_cli : string := "./cli/dist/index.js".

(** ** The host: library and operating-system calls *)

(** What [subprocess.run(..., timeout=...)] does: it completes, or raises
    [TimeoutExpired], or raises another exception [e] with [str(e) = msg]. *)
Inductive proc_result : Type :=
| Completed (returncode : Z) (out err : string)
| TimeoutExpired
| OtherException (msg : string).

Record Host : Type := mkHost {
  (* str(Path(working_dir) / output_path) *)
  path_join : string -> string -> string;
  (* subprocess.run(cmd, cwd=..., capture_output=True, text=True,
     timeout=...); the tool may change files and time passes *)
  subprocess_run : list string -> string -> Z -> World
                   -> proc_result * World;
  (* os.system(cmd), return value unused *)
  os_system : string -> World -> World;
  (* the JSON parser on arbitrary text: the value, or str(e) of the
     JSONDecodeError e *)
  json_loads : string -> string + json;
  (* yaml.safe_load on an opened file *)
  yaml_safe_load : content -> exn + SuiteConfig
}.

(** ** Membership, as Python's [in] decides it *)

(** [sub in s] on two strings: substring search. *)
Fixpoint contains (sub s : string) : bool :=
  String.prefix sub s ||
  match s with
  | EmptyString => false
  | String _ s' => contains sub s'
  end.

(** [x == field] for a loaded JSON value [x] and a string [field]. *)
Definition json_eq_str (x : json) (field : string) : bool :=
  match x with
  | JStr s => String.eqb s field
  | _ => false
  end.

(** [type(data).__name__] *)
Definition type_name (data : json) : string :=
  match data with
  | JNull => "NoneType"
  | JBool _ => "bool"
  | JInt _ => "int"
  | JFloat _ => "float"
  | JStr _ => "str"
  | JArr _ => "list"
  | JObj _ => "dict"
  end.

Definition not_iterable (data : json) : exn :=
  TypeError ("argument of type '" ++ type_name data ++ "' is not iterable").

(** [field in data]: key lookup on a dict, element comparison on a list,
    substring search on a string, [TypeError] on anything else. *)
Definition py_in (field : string) (data : json) : exn + bool :=
  match data with
  | JObj members => inr (existsb (fun kv => String.eqb (fst kv) field) members)
  | JArr items => inr (existsb (fun x => json_eq_str x field) items)
  | JStr s => inr (contains field s)
  | _ => inl (not_iterable data)
  end.

(** The loop of [validate_json_output] (lines 96-99):
    [for field in required_fields: if field not in data: append]. *)
Fixpoint collect_missing (required_fields : list string) (data : json)
  (missing_fields : list string) : exn + list string :=
  match required_fields with
  | [] => inr missing_fields
  | field :: rest =>
      match py_in field data with
      | inl e => inl e
      | inr true => collect_missing rest data missing_fields
      | inr false => collect_missing rest data (missing_fields ++ [field])
      end
  end.

(** [list(data.keys()) if isinstance(data, dict) else []] *)
Definition keys_of (data : json) : list string :=
  match data with
  | JObj members => map fst members
  | _ => []
  end.

(** ** Serialisation of the result dictionaries, key by key in the order
    the script inserts them *)

Definition strings_json (l : list string) : json := JArr (map JStr l).

Definition execution_json (e : Execution) : json :=
  JObj [("success", JBool (success e));
        ("stdout", JStr (stdout e));
        ("stderr", JStr (stderr e));
        ("duration", JFloat (duration e));
        ("exit_code", JInt (exit_code e))].

Definition output_validation_json (v : OutputValidation) : json :=
  JObj [("files_created", strings_json (files_created v));
        ("files_missing", strings_json (files_missing v));
        ("total_expected", JInt (total_expected v));
        ("success", JBool (ov_success v));
        ("created_count", JInt (created_count v));
        ("missing_count", JInt (missing_count v))].

Definition json_validation_json (v : JsonValidation) : json :=
  match v with
  | JsonError s e => JObj [("success", JBool s); ("error", JStr e)]
  | JsonFields s m k t =>
      JObj [("success", JBool s);
            ("missing_fields", strings_json m);
            ("data_keys", strings_json k);
            ("data_type", JStr t)]
  end.

Definition test_result_json (t : TestResult) : json :=
  JObj ([("name", JStr (name t));
         ("pipeline", JStr (pipeline t));
         ("execution", execution_json (execution t))]
        ++ match output_validation t with
           | Some v => [("output_validation", output_validation_json v)]
           | None => []
           end
        ++ match json_validations t with
           | Some d =>
               [("json_validations",
                 JObj (map (fun kv => (fst kv, json_validation_json (snd kv)))
                           d))]
           | None => []
           end).

(** The [report] dictionary of [generate_report] (lines 209-218). *)
Definition report_json (timestamp : float) (self : PipelineValidator) : json :=
  JObj [("timestamp", JFloat timestamp);
        ("cli_path", JStr (cli_path self));
        ("results", JArr (map test_result_json (test_results self)));
        ("summary",
         JObj [("total", JInt (len (test_results self)));
               ("passed",
                JInt (sum_ones (fun r => success (execution r))
                               (test_results self)));
               ("failed",
                JInt (sum_ones (fun r => negb (success (execution r)))
                               (test_results self)))])].

(** The directory part of a path: what precedes its last slash, if it
    has one. *)
Fixpoint dirname (path : string) : option string :=
  match path with
  | EmptyString => None
  | String c rest =>
      match dirname rest with
      | Some d => Some (String c d)
      | None => if Ascii.eqb c "/"%char then Some EmptyString else None
      end
  end.

(** Whether a path ends in a slash, and the path without its trailing
    slashes. *)
Fixpoint ends_with_slash (path : string) : bool :=
  match path with
  | EmptyString => false
  | String c EmptyString => Ascii.eqb c "/"%char
  | String _ rest => ends_with_slash rest
  end.

Fixpoint strip_slashes (path : string) : string :=
  match path with
  | EmptyString => EmptyString
  | String c rest =>
      match strip_slashes rest with
      | EmptyString =>
          if Ascii.eqb c "/"%char then EmptyString else String c EmptyString
      | rest' => String c rest'
      end
  end.

(** What stops [open(path, 'w')] from creating a new entry at [path]: the
    directory the last component lies in, when the path names one other
    than the root, has to be a directory.  The error carries the path as
    it was given. *)
Definition parent_error (w : World) (path : string) : option exn :=
  match dirname (strip_slashes path) with
  | None => None
  | Some d =>
      match strip_slashes d with
      | EmptyString => None
      | parent =>
          match files w parent with
          | Directory => None
          | Absent => Some (FileNotFoundError path)
          | File _ => Some (NotADirectoryError path)
          end
      end
  end.

(** [with open(output_path, 'w') as f: json.dump(v, f, indent=2)], with
    [open] as on Linux: a directory cannot be opened for writing, an
    existing file is replaced, and a new file needs a name (the empty path
    and a path ending in a slash have none) and its parent directory.
    Paths are keys as they are spelled, and the world has no permissions
    and no full disk.  The values dumped here ([report_json]) are made of
    dicts, lists, strings, numbers and booleans, which [json.dump]
    serialises. *)
Definition json_dump_to (output_path : string) (v : json) : M unit :=
  fun w =>
    match files w output_path with
    | Directory => Raise (IsADirectoryError output_path) w
    | File _ => Return tt (with_file w output_path (File (JsonText v)))
    | Absent =>
        match output_path with
        | EmptyString => Raise (FileNotFoundError output_path) w
        | _ =>
            match parent_error w output_path with
            | Some e => Raise e w
            | None =>
                if ends_with_slash output_path
                then Raise (IsADirectoryError output_path) w
                else Return tt
                       (with_file w output_path (File (JsonText v)))
            end
        end
    end.

(** [sys.argv[1] if len(sys.argv) > 1 else "test-config.yaml"]
    (lines 226-229). *)
Definition config_file (argv : list string) : string :=
  match argv with
  | _ :: a :: _ => a
  | _ => "test-config.yaml"
  end.

(** [sys.exit(0 if success else 1)] *)
Definition exit_status (success : bool) : Z := if success then 0 else 1.

(** ** The methods of [PipelineValidator] *)

Section Methods.

Variable host : Host.

(** [subprocess.run] as a computation. *)
Definition run_process (cmd : list string) (cwd : string) (timeout : Z)
  : M proc_result :=
  fun w => let (r, w') := subprocess_run host cmd cwd timeout w in
           Return r w'.

(** [run_pipeline] (lines 18-59).  The three [return] statements are the
    three branches; the elapsed time is read after the call except on a
    timeout, where the literal [60.0] is returned. *)
Definition run_pipeline (self : PipelineValidator)
  (pipeline_path working_dir : string) : M Execution :=
  start_time <- time_time ;;
  let cmd := ["node"; cli_path self; "run"; pipeline_path] in
  result <- run_process cmd working_dir 60 ;;
  match result with
  | Completed returncode out err =>
      now <- time_time ;;
      let duration := PrimFloat.sub now start_time in
      ret (mkExecution (returncode =? 0) out err duration returncode)
  | TimeoutExpired =>
      ret (mkExecution false EmptyString
             "Pipeline execution timed out after 60 seconds"
             60%float (-1))
  | OtherException msg =>
      now <- time_time ;;
      ret (mkExecution false EmptyString msg
             (PrimFloat.sub now start_time) (-1))
  end.

(** [(Path(working_dir) / output_path).exists()] *)
Definition exists_in (w : World) (working_dir output_path : string) : bool :=
  match files w (path_join host working_dir output_path) with
  | Absent => false
  | _ => true
  end.

(** The loop of [validate_outputs] (lines 70-75), carrying the two lists
    being appended to. *)
Fixpoint check_outputs (w : World) (working_dir : string)
  (expected_outputs created missing : list string)
  : list string * list string :=
  match expected_outputs with
  | [] => (created, missing)
  | output_path :: rest =>
      if exists_in w working_dir output_path
      then check_outputs w working_dir rest (created ++ [output_path]) missing
      else check_outputs w working_dir rest created (missing ++ [output_path])
  end.

(** [validate_outputs] (lines 61-81). *)
Definition validate_outputs (expected_outputs : list string)
  (working_dir : string) : M OutputValidation :=
  fun w =>
    let (created, missing) :=
      check_outputs w working_dir expected_outputs [] [] in
    Return (mkOutputValidation created missing (len expected_outputs)
              (len missing =? 0) (len created) (len missing)) w.

(** [json.load(f)] on an opened file.  The files of this world hold text
    that decodes, and the parser either gives a value or fails with
    [json.JSONDecodeError], the one exception lines 108-112 handle; the
    other exceptions [json.load] has ([UnicodeDecodeError] on bytes that
    are no text, [RecursionError] on very deep nesting, [ValueError] on an
    over-long number) are outside this model and, not being handled by the
    source, would leave [validate_json_output] like those of [open]. *)
Definition json_load (c : content) : string + json :=
  match c with
  | JsonText v => inr v
  | Text s => json_loads host s
  end.

(** [validate_json_output] (lines 83-112).  Only [json.JSONDecodeError]
    is handled; what [open] or the membership test raise propagates. *)
Definition validate_json_output (json_path : string)
  (required_fields : list string) : M JsonValidation :=
  fun w =>
    match files w json_path with
    | Absent =>
        Return (JsonError false ("JSON file not found: " ++ json_path)) w
    | Directory => Raise (IsADirectoryError json_path) w
    | File c =>
        match json_load c with
        | inl detail => Return (JsonError false ("Invalid JSON: " ++ detail)) w
        | inr data =>
            match collect_missing required_fields data [] with
            | inl e => Raise e w
            | inr missing_fields =>
                Return (JsonFields (len missing_fields =? 0) missing_fields
                          (keys_of data) (type_name data)) w
            end
        end
    end.

(** [config[key]] on a mapping where the key may be absent. *)
Definition getitem {A} (key : string) (v : option A) : M A :=
  match v with
  | Some a => ret a
  | None => raise (KeyError key)
  end.

(** [config.get("working_dir", ".")] *)
Definition working_dir_of (config : CaseConfig) : string :=
  match cfg_working_dir config with
  | Some d => d
  | None => "."
  end.

(** The loop over [config["json_validations"].items()] (lines 148-155);
    [done] is the dictionary [test_result["json_validations"]]. *)
Fixpoint check_json_files (entries : list (string * list string))
  (done : list (string * JsonValidation))
  : M (list (string * JsonValidation)) :=
  match entries with
  | [] => ret done
  | (json_file, required_fields) :: rest =>
      json_validation <- validate_json_output json_file required_fields ;;
      let done' := dict_set done json_file json_validation in
      (if jv_success json_validation
       then print (HasAllRequiredFields json_file)
       else print (ValidationFailed json_file
                     match jv_error json_validation with
                     | Some e => e
                     | None => "Missing fields"
                     end)) ;;
      check_json_files rest done'
  end.

(** [test_pipeline] (lines 114-161). *)
Definition test_pipeline (self : PipelineValidator) (pipeline_name : string)
  (config : CaseConfig) : M TestResult :=
  print (TestingPipeline pipeline_name) ;;
  pipeline <- getitem "pipeline" (cfg_pipeline config) ;;
  print (PipelineLine pipeline) ;;
  result <- run_pipeline self pipeline (working_dir_of config) ;;
  let test_result := mkTestResult pipeline_name pipeline result None None in
  if success result then
    print (ExecutionSuccessful (duration result)) ;;
    test_result <-
      match cfg_expected_outputs config with
      | Some expected_outputs =>
          output_validation <-
            validate_outputs expected_outputs (working_dir_of config) ;;
          (if ov_success output_validation
           then print (AllExpectedFilesCreated
                         (created_count output_validation))
           else print (MissingFiles (missing_count output_validation)
                         (files_missing output_validation))) ;;
          ret (set_output_validation test_result output_validation)
      | None => ret test_result
      end ;;
    match cfg_json_validations config with
    | Some entries =>
        checks <- check_json_files entries [] ;;
        ret (set_json_validations test_result checks)
    | None => ret test_result
    end
  else
    print (ExecutionFailed (duration result)) ;;
    print (ErrorLine (stderr result)) ;;
    ret test_result.

(** The setup loop (lines 180-182). *)
Fixpoint run_setup (cmds : list string) : M unit :=
  match cmds with
  | [] => ret tt
  | cmd :: rest =>
      print (RunningSetup cmd) ;;
      (fun w => Return tt (os_system host cmd w)) ;;
      run_setup rest
  end.

(** The test loop (lines 185-188), carrying [all_results]. *)
Fixpoint run_tests (self : PipelineValidator)
  (tests : list (string * CaseConfig)) (all_results : list TestResult)
  : M (list TestResult) :=
  match tests with
  | [] => ret all_results
  | (test_name, test_config) :: rest =>
      result <- test_pipeline self test_name test_config ;;
      run_tests self rest (all_results ++ [result])
  end.

(** The summary (lines 190-204): counts, the three printed figures and
    the returned signal. *)
Definition summarize (all_results : list TestResult) : M bool :=
  let passed := sum_ones (fun r => success (execution r)) all_results in
  let total := len all_results in
  print SummaryHeader ;;
  print (TotalLine total) ;;
  print (PassedLine passed) ;;
  print (FailedLine (total - passed)) ;;
  if passed =? total then
    print AllTestsPassed ;; ret true
  else
    print SomeTestsFailed ;; ret false.

(** [with open(config_path, 'r') as f: config = yaml.safe_load(f)] *)
Definition load_config (config_path : string) : M SuiteConfig :=
  fun w =>
    match files w config_path with
    | File c =>
        match yaml_safe_load host c with
        | inl e => Raise e w
        | inr config => Return config w
        end
    | Directory => Raise (IsADirectoryError config_path) w
    | Absent => Raise (FileNotFoundError config_path) w
    end.

(** [run_test_suite] (lines 163-204). *)
Definition run_test_suite (self : PipelineValidator) (config_path : string)
  : M bool :=
  found <- path_exists config_path ;;
  if negb found then
    print (ConfigNotFound config_path) ;;
    ret false
  else
    config <- load_config config_path ;;
    print StartingSuite ;;
    print (ConfigLine config_path) ;;
    print (CliLine (cli_path self)) ;;
    match cfg_setup config with
    | Some cmds => print SettingUp ;; run_setup cmds
    | None => ret tt
    end ;;
    all_results <-
      run_tests self
        match cfg_tests config with Some t => t | None => [] end [] ;;
    summarize all_results.

(** [generate_report] (lines 206-223). *)
Definition generate_report (self : PipelineValidator) (output_path : string)
  : M unit :=
  timestamp <- time_time ;;
  json_dump_to output_path (report_json timestamp self) ;;
  print (ReportSaved output_path).

(** [main] (lines 225-235); the value is the status given to
    [sys.exit]. *)
Definition main (argv : list string) : M Z :=
  let validator := init default_cli in
  success <- run_test_suite validator (config_file argv) ;;
  generate_report validator "test-results.json" ;;
  ret (exit_status success).

End Methods.

(** ** Auxiliary notions used in the statements *)

(** The world in which [test_pipeline] launches the tool: two lines have
    been printed. *)
Definition announced (pipeline_name p : string) (w : World) : World :=
  say (PipelineLine p) (say (TestingPipeline pipeline_name) w).

(** The relation between a configured case and its result: same name,
    same pipeline. *)
Definition result_of_case (case : string * CaseConfig) (r : TestResult)
  : Prop :=
  name r = fst case /\ cfg_pipeline (snd case) = Some (pipeline r).

(** The required fields that are not keys of a JSON object. *)
Definition fields_not_in (members : list (string * json))
  (required_fields : list string) : list string :=
  filter (fun field =>
            negb (existsb (fun kv => String.eqb (fst kv) field) members))
         required_fields.

(** ** A concrete host and concrete worlds, for running the model *)

Module Demo.

(** Joining as [pathlib] does for a plain relative name. *)
Definition join (working_dir output_path : string) : string :=
  if String.eqb working_dir "." then output_path
  else working_dir ++ "/" ++ output_path.

Definition with_clock (w : World) (t : float) : World :=
  mkWorld (files w) t (console w).

(** A tool that succeeds on [ok.yaml] and writes [out.json], exits with
    status 1 on [fail.yaml], hangs on [slow.yaml] and cannot be launched
    otherwise. *)
Definition tool (cmd : list string) (cwd : string) (timeout : Z) (w : World)
  : proc_result * World :=
  match cmd with
  | [_; _; _; pipeline_path] =>
      if String.eqb pipeline_path "ok.yaml" then
        (Completed 0 "done" EmptyString,
         with_clock
           (with_file w "out.json"
              (File (JsonText (JObj [("a", JInt 1); ("b", JInt 2)]))))
           (PrimFloat.add (clock w) 1.5%float))
      else if String.eqb pipeline_path "fail.yaml" then
        (Completed 1 EmptyString "boom",
         with_clock w (PrimFloat.add (clock w) 0.5%float))
      else if String.eqb pipeline_path "slow.yaml" then
        (TimeoutExpired,
         with_clock w (PrimFloat.add (clock w) 60%float))
      else (OtherException "[Errno 2] No such file or directory: 'node'", w)
  | _ => (OtherException "bad command", w)
  end.

Definition case_b : CaseConfig :=
  mkCaseConfig (Some "ok.yaml") None (Some ["out.json"]) None.

Definition case_a : CaseConfig :=
  mkCaseConfig (Some "fail.yaml") None None None.

(** Two cases, declared in the order [b], [a]. *)
Definition tests : list (string * CaseConfig) :=
  [("b", case_b); ("a", case_a)].

Definition suite : SuiteConfig := mkSuiteConfig None (Some tests).

(** A suite whose first case checks the fields of [artifact]. *)
Definition checking_suite : SuiteConfig :=
  mkSuiteConfig None
    (Some [("j", mkCaseConfig (Some "ok.yaml") None None
                   (Some [("artifact", ["a"])]));
           ("a", case_a)]).

(** The parser rejects every raw text it is given; the YAML loader knows
    two documents. *)
Definition host : Host :=
  mkHost join tool (fun _ w => w)
    (fun _ => inl "Expecting value: line 1 column 1 (char 0)")
    (fun c => match c with
              | Text t =>
                  if String.eqb t "suite" then inr suite
                  else if String.eqb t "checking" then inr checking_suite
                  else inl (YAMLError "could not load")
              | JsonText _ => inl (YAMLError "could not load")
              end).

(** An empty filesystem at time 100. *)
Definition empty : World := mkWorld (fun _ => Absent) 100%float [].

(** The filesystem with the suite description in place. *)
Definition configured : World :=
  with_file empty "test-config.yaml" (File (Text "suite")).

(** The filesystem with the checking suite in place and [artifact]
    being the node [n]. *)
Definition checking (n : node) : World :=
  with_file (with_file empty "test-config.yaml" (File (Text "checking")))
            "artifact" n.

Definition validator : PipelineValidator := init default_cli.

End Demo.


(** ** More concrete cases, for running the model *)

Module Example.

(** A case that runs in the directory [build] and names the same file
    as expected output and as JSON artifact. *)
Definition built_case : CaseConfig :=
  mkCaseConfig (Some "ok.yaml") (Some "build") (Some ["report.json"])
    (Some [("report.json", ["a"])]).

(** The filesystem where that file exists under [build] only. *)
Definition in_build : World :=
  with_file Demo.empty "build/report.json"
    (File (JsonText (JObj [("a", JInt 1)]))).

(** A case without the key [pipeline]. *)
Definition no_pipeline : CaseConfig := mkCaseConfig None None None None.

(** A configuration with one setup command and no tests. *)
Definition empty_suite : SuiteConfig :=
  mkSuiteConfig (Some ["make fixtures"]) None.

(** The demo host, whose YAML loader also knows the empty suite. *)
Definition host : Host :=
  mkHost Demo.join Demo.tool (fun _ w => w)
    (fun _ => inl "Expecting value: line 1 column 1 (char 0)")
    (fun c => match c with
              | Text t =>
                  if String.eqb t "empty" then inr empty_suite
                  else inl (YAMLError "could not load")
              | JsonText _ => inl (YAMLError "could not load")
              end).

(** The filesystem with the empty suite as configuration. *)
Definition with_empty_suite : World :=
  with_file Demo.empty "test-config.yaml" (File (Text "empty")).

(** The filesystem whose configuration the loader rejects. *)
Definition with_bad_config : World :=
  with_file Demo.empty "test-config.yaml" (File (Text "garbage")).

(** The filesystem whose only artifact holds the number 42. *)
Definition with_number : World :=
  with_file Demo.empty "artifact" (File (JsonText (JInt 42))).

End Example.

(** ** Further notions used in the statements about the suite *)

(** [config.get("tests", {})] *)
Definition tests_of (config : SuiteConfig) : list (string * CaseConfig) :=
  match cfg_tests config with
  | Some t => t
  | None => []
  end.

(** The world the setup loop leaves: each command is announced, then
    handed to [os.system]. *)
Definition after_setup (host : Host) (cmds : list string) (w : World)
  : World :=
  fold_left (fun w cmd => os_system host cmd (say (RunningSetup cmd) w))
            cmds w.

(** The world in which the first case of a loaded suite starts: the three
    header lines are printed and the setup commands have run. *)
Definition suite_started (host : Host) (self : PipelineValidator)
  (config_path : string) (config : SuiteConfig) (w : World) : World :=
  let w1 := say (CliLine (cli_path self))
              (say (ConfigLine config_path) (say StartingSuite w)) in
  match cfg_setup config with
  | Some cmds => after_setup host cmds (say SettingUp w1)
  | None => w1
  end.

(** JSON values on which Python's [in] is not defined. *)
Definition is_scalar (data : json) : bool :=
  match data with
  | JNull | JBool _ | JInt _ | JFloat _ => true
  | JStr _ | JArr _ | JObj _ => false
  end.

(** * The fixture generator: [scripts/generate-test-pdfs.py]

    The script builds PDF files with reportlab.  A document is kept as
    the data handed to the library: the flowables given to
    [SimpleDocTemplate.build], or the drawing calls made on a [Canvas]
    before [save].  The filesystem is keyed by whole path strings; a
    write needs the parent directory named by the path to exist. *)

Module PdfGen.

(** A Python number: the script passes both ints and floats. *)
Inductive num : Type :=
| Int (z : Z)
| Flt (f : float).

(** [reportlab.lib.units.inch] and the two page sizes the script takes
    from [reportlab.lib.pagesizes].  [letter] is the library's.  [ARCH_D]
    is the sheet the source means by the name, 24 by 36 inches (line 24):
    the library as released defines no such name, so this is the value of
    a library that provides it, and with the released one the import of
    line 10 fails and none of the functions below is reached (see
    [script]). *)
Definition inch : float := 72%float.

Definition ARCH_D : float * float := ((24 * inch)%float, (36 * inch)%float).

Definition letter : float * float :=
  ((8.5 * inch)%float, (11 * inch)%float).

(** The calls made on a canvas. *)
Inductive op : Type :=
| SetLineWidth (width : num)
| SetFont (font : string) (size : num)
| Rect (x y width height : num)
| Line (x1 y1 x2 y2 : num)
| DrawString (x y : num) (text : string).

Inductive alignment : Type := TA_LEFT | TA_CENTER | TA_RIGHT.

(** [styles[name]] of the sample style sheet, or a [ParagraphStyle]
    derived from one. *)
Inductive style : Type :=
| Sample (style_name : string)
| ParagraphStyle (style_name : string) (parent : style)
                 (fontSize spaceAfter : Z) (align : alignment).

(** The trailing arguments of a [TableStyle] command. *)
Inductive style_arg : Type :=
| Color (color_name : string)
| Size (z : Z)
| Word (s : string).

(** One [TableStyle] command: name, first cell, last cell, arguments. *)
Record style_cmd : Type := mkStyleCmd {
  cmd_name : string;
  cmd_start : Z * Z;
  cmd_stop : Z * Z;
  cmd_args : list style_arg
}.

Inductive flowable : Type :=
| Paragraph (text : string) (st : style)
| Spacer (width height : num)
| Table (data : list (list string)) (table_style : list style_cmd).

(** What a PDF file was made from. *)
Inductive document : Type :=
| Built (pagesize : float * float) (story : list flowable)
| Drawn (pagesize : float * float) (ops : list op).

Inductive node : Type :=
| Absent
| Directory
| File (d : document).

Inductive error : Type :=
| FileExistsError (path : string)
| FileNotFoundError (path : string)
| IsADirectoryError (path : string)
| NotADirectoryError (path : string).

(** The lines the script prints; the first is that of the import guard
    (line 18). *)
Inductive line : Type :=
| ReportlabNotInstalled
| CreatingFiles
| CreatedIn (test_dir : string)
| FilesCreated
| Listed (pdf_file : string).

Record World : Type := mkWorld {
  files : string -> node;
  (* datetime.datetime.now().strftime("%m/%d/%Y") *)
  today : string;
  console : list line
}.

Definition with_file (w : World) (path : string) (n : node) : World :=
  mkWorld (fun p => if String.eqb p path then n else files w p)
          (today w) (console w).

Definition say (l : line) (w : World) : World :=
  mkWorld (files w) (today w) (console w ++ [l]).

Inductive Outcome (A : Type) : Type :=
| Return (a : A) (w : World)
| Raise (e : error) (w : World).
Arguments Return {A} a w.
Arguments Raise {A} e w.

Definition M (A : Type) : Type := World -> Outcome A.

Definition ret {A} (a : A) : M A := fun w => Return a w.

Definition bind {A B} (m : M A) (k : A -> M B) : M B :=
  fun w => match m w with
           | Return a w' => k a w'
           | Raise e w' => Raise e w'
           end.

Declare Scope pdf_scope.
Delimit Scope pdf_scope with pdf.
Notation "m ;;; k" := (bind m (fun _ => k))
  (at level 61, right associativity) : pdf_scope.
Local Open Scope pdf_scope.

Definition print (l : line) : M unit := fun w => Return tt (say l w).

(** The directory part of a path: what precedes its last slash, if it
    has one. *)
Fixpoint dirname (path : string) : option string :=
  match path with
  | EmptyString => None
  | String c rest =>
      match dirname rest with
      | Some d => Some (String c d)
      | None => if Ascii.eqb c "/"%char then Some EmptyString else None
      end
  end.

(** Whether a new entry can be made at [path]: the directory part, when
    there is one, has to be a directory. *)
Definition parent_error (w : World) (path : string) : option error :=
  match dirname path with
  | None => None
  | Some EmptyString => None
  | Some d =>
      match files w d with
      | Directory => None
      | Absent => Some (FileNotFoundError path)
      | File _ => Some (NotADirectoryError path)
      end
  end.

(** Opening [path] for writing and storing [d]: a directory cannot be
    opened, a file is replaced, a new file needs its parent. *)
Definition write (path : string) (d : document) : M unit :=
  fun w =>
    match files w path with
    | Directory => Raise (IsADirectoryError path) w
    | File _ => Return tt (with_file w path (File d))
    | Absent =>
        match parent_error w path with
        | Some e => Raise e w
        | None => Return tt (with_file w path (File d))
        end
    end.

(** [Path(path).mkdir(exist_ok=True)] *)
Definition mkdir (path : string) : M unit :=
  fun w =>
    match files w path with
    | Directory => Return tt w
    | File _ => Raise (FileExistsError path) w
    | Absent =>
        match parent_error w path with
        | Some e => Raise e w
        | None => Return tt (with_file w path Directory)
        end
    end.

(** [os.rename(src, dst)].  The script only renames the file it has just
    saved; for a source directory the entries below it are not followed. *)
Definition rename (src dst : string) : M unit :=
  fun w =>
    match files w src with
    | Absent => Raise (FileNotFoundError src) w
    | File d =>
        match files w dst with
        | Directory => Raise (IsADirectoryError dst) w
        | File _ => Return tt (with_file (with_file w src Absent) dst (File d))
        | Absent =>
            match parent_error w dst with
            | Some e => Raise e w
            | None =>
                Return tt (with_file (with_file w src Absent) dst (File d))
            end
        end
    | Directory =>
        match files w dst with
        | File _ => Raise (NotADirectoryError dst) w
        | _ => Return tt (with_file (with_file w src Absent) dst Directory)
        end
    end.

(** [s.replace(old, new)] for a non-empty [old]: every occurrence, found
    left to right without overlap, is replaced.  [skip] counts the
    characters of a found occurrence still to be passed over. *)
Fixpoint replace_from (old new s : string) (skip : nat) : string :=
  match s with
  | EmptyString => EmptyString
  | String c rest =>
      match skip with
      | S k => replace_from old new rest k
      | O =>
          if String.prefix old s
          then new ++ replace_from old new rest (String.length old - 1)
          else String c (replace_from old new rest 0)
      end
  end.

Definition replace (old new s : string) : string := replace_from old new s 0.

(** The number of occurrences [replace] finds. *)
Fixpoint occurrences_from (old s : string) (skip : nat) : nat :=
  match s with
  | EmptyString => 0
  | String c rest =>
      match skip with
      | S k => occurrences_from old rest k
      | O =>
          if String.prefix old s
          then S (occurrences_from old rest (String.length old - 1))
          else occurrences_from old rest 0
      end
  end.

Definition occurrences (old s : string) : nat := occurrences_from old s 0.

(** [temp_file] of [add_title_block] (line 99). *)
Definition temp_file (filename : string) : string :=
  replace ".pdf" "_temp.pdf" filename.

(** The calls [add_title_block] makes on its canvas (lines 103-139). *)
Definition title_block
  (drawing_number project_number revision today : string) : list op :=
  let tb_width := (4 * inch)%float in
  let tb_height := (2 * inch)%float in
  let page_width := fst ARCH_D in
  let x := (page_width - tb_width - 0.5 * inch)%float in
  let y := (0.5 * inch)%float in
  [SetLineWidth (Int 2);
   Rect (Flt x) (Flt y) (Flt tb_width) (Flt tb_height);
   SetLineWidth (Int 1);
   Line (Flt x) (Flt (y + tb_height / 2)%float)
        (Flt (x + tb_width)%float) (Flt (y + tb_height / 2)%float);
   Line (Flt (x + tb_width / 2)%float) (Flt y)
        (Flt (x + tb_width / 2)%float) (Flt (y + tb_height)%float);
   SetFont "Helvetica-Bold" (Int 8);
   DrawString (Flt (x + 5)%float) (Flt (y + tb_height - 15)%float)
              "PROJECT NO:";
   DrawString (Flt (x + 5)%float) (Flt (y + tb_height - 25)%float)
              project_number;
   DrawString (Flt (x + 5)%float) (Flt (y + tb_height - 40)%float)
              "PROJECT NAME:";
   DrawString (Flt (x + 5)%float) (Flt (y + tb_height - 50)%float)
              "OFFICE BUILDING";
   DrawString (Flt (x + tb_width / 2 + 5)%float)
              (Flt (y + tb_height - 15)%float) "DRAWING NO:";
   DrawString (Flt (x + tb_width / 2 + 5)%float)
              (Flt (y + tb_height - 25)%float) drawing_number;
   DrawString (Flt (x + tb_width / 2 + 5)%float)
              (Flt (y + tb_height - 40)%float) "REV:";
   DrawString (Flt (x + tb_width / 2 + 5)%float)
              (Flt (y + tb_height - 50)%float) revision;
   DrawString (Flt (x + 5)%float) (Flt (y + 25)%float) ("DATE: " ++ today);
   DrawString (Flt (x + 5)%float) (Flt (y + 15)%float)
              "ENGINEER: J. SMITH, PE";
   DrawString (Flt (x + tb_width / 2 + 5)%float) (Flt (y + 25)%float)
              "SIGNED:";
   DrawString (Flt (x + tb_width / 2 + 5)%float) (Flt (y + 15)%float)
              "SEALED:"].

(** [add_title_block] (lines 91-145): the canvas is saved under the
    temporary name, which is then renamed to [filename]. *)
Definition add_title_block
  (filename drawing_number project_number revision : string) : M unit :=
  fun w =>
    (write (temp_file filename)
       (Drawn ARCH_D
          (title_block drawing_number project_number revision (today w))) ;;;
     rename (temp_file filename) filename) w.

(** The loop over the general notes (lines 53-55). *)
Fixpoint note_flowables (notes : list string) : list flowable :=
  match notes with
  | [] => []
  | note :: rest =>
      Paragraph note (Sample "Normal") :: Spacer (Int 1) (Int 6)
      :: note_flowables rest
  end.

Definition general_notes : list string :=
  ["1. ALL DIMENSIONS TO BE VERIFIED IN FIELD BEFORE CONSTRUCTION";
   "2. CONTRACTOR TO COORDINATE ALL TRADES BEFORE PROCEEDING";
   "3. ALL WORK TO COMPLY WITH LOCAL BUILDING CODES";
   "4. RFI REQUIRED FOR ANY DISCREPANCIES OR CLARIFICATIONS";
   "5. REFER TO STRUCTURAL DRAWINGS FOR BEAM SIZES AND CONNECTIONS"].

Definition room_data : list (list string) :=
  [["ROOM NO."; "ROOM NAME"; "AREA (SF)"; "FINISH"];
   ["101"; "LOBBY"; "450"; "CARPET"];
   ["102"; "CONFERENCE ROOM"; "320"; "CARPET"];
   ["103"; "OFFICE"; "150"; "VCT"];
   ["104"; "STORAGE"; "80"; "SEALED CONCRETE"];
   ["105"; "BREAK ROOM"; "200"; "VCT"]].

Definition room_style : list style_cmd :=
  [mkStyleCmd "BACKGROUND" (0, 0) (-1, 0) [Color "grey"];
   mkStyleCmd "TEXTCOLOR" (0, 0) (-1, 0) [Color "whitesmoke"];
   mkStyleCmd "ALIGN" (0, 0) (-1, -1) [Word "CENTER"];
   mkStyleCmd "FONTNAME" (0, 0) (-1, 0) [Word "Helvetica-Bold"];
   mkStyleCmd "FONTSIZE" (0, 0) (-1, 0) [Size 12];
   mkStyleCmd "BOTTOMPADDING" (0, 0) (-1, 0) [Size 12];
   mkStyleCmd "BACKGROUND" (0, 1) (-1, -1) [Color "beige"];
   mkStyleCmd "GRID" (0, 0) (-1, -1) [Size 1; Color "black"]].

(** The [story] of [create_construction_drawing] (lines 26-83). *)
Definition story : list flowable :=
  ([Paragraph "FLOOR PLAN - FIRST LEVEL"
      (ParagraphStyle "CustomTitle" (Sample "Heading1") 24 30 TA_CENTER);
    Spacer (Int 1) (Flt (0.5 * inch)%float);
    Paragraph "GENERAL NOTES:" (Sample "Heading2")]
   ++ note_flowables general_notes
   ++ [Spacer (Int 1) (Flt (1 * inch)%float);
       Paragraph "ROOM SCHEDULE:" (Sample "Heading2");
       Table room_data room_style])%list.

(** [create_construction_drawing] (lines 21-89).  The three defaults
    of the Python signature ("A-101", "2024-001", "A") are left to the
    caller; [create_test_suite] passes all of them. *)
Definition create_construction_drawing
  (filename drawing_number project_number revision : string) : M unit :=
  write filename (Built ARCH_D story) ;;;
  add_title_block filename drawing_number project_number revision.

(** The loop over the scanned notes (lines 171-174): the calls made and
    the final [y_pos]. *)
Fixpoint draw_notes (notes : list string) (y_pos : Z) : list op * Z :=
  match notes with
  | [] => ([], y_pos)
  | note :: rest =>
      let (ops, y_end) := draw_notes rest (y_pos - 20) in
      (DrawString (Int 100) (Int y_pos) note :: ops, y_end)
  end.

Definition scanned_notes : list string :=
  ["NOTES:";
   "1. VERIFY ALL DIMENSIONS IN FIELD";
   "2. RFI REQUIRED FOR CLARIFICATIONS";
   "3. TBD - STRUCTURAL CONNECTION DETAILS";
   "4. TO BE CONFIRMED WITH ARCHITECT"].

(** The calls [create_scanned_drawing] makes on its canvas
    (lines 153-187). *)
Definition scanned_ops : list op :=
  ([SetFont "Helvetica" (Int 10);
    DrawString (Int 100) (Int 700) "SCANNED CONSTRUCTION DRAWING";
    DrawString (Int 100) (Int 680) "PROJECT NUMBER: 2024-SCAN-001";
    DrawString (Int 100) (Int 660) "DRAWING NUMBER: S-101";
    DrawString (Int 100) (Int 640) "REVISION: B";
    DrawString (Int 100) (Int 620) "DATE: 09/02/2025"]
   ++ fst (draw_notes scanned_notes 580)
   ++ [SetLineWidth (Int 2);
       Rect (Int 100) (Int 200) (Int 400) (Int 300);
       Rect (Int 150) (Int 250) (Int 100) (Int 100);
       Rect (Int 250) (Int 250) (Int 100) (Int 100);
       Rect (Int 350) (Int 250) (Int 100) (Int 100);
       SetFont "Helvetica" (Int 8);
       DrawString (Int 180) (Int 300) "OFFICE";
       DrawString (Int 270) (Int 300) "CONFERENCE";
       DrawString (Int 375) (Int 300) "STORAGE"])%list.

(** [create_scanned_drawing] (lines 147-189). *)
Definition create_scanned_drawing (filename : string) : M unit :=
  write filename (Drawn letter scanned_ops).

(** [str(a / b)] for two relative parts. *)
Definition join (a b : string) : string := a ++ "/" ++ b.

(** The loop that lists the files found (lines 226-227). *)
Fixpoint list_files (found : list string) : M unit :=
  match found with
  | [] => ret tt
  | pdf_file :: rest => print (Listed pdf_file) ;;; list_files rest
  end.

(** [create_test_suite] (lines 191-227).  [rglob] stands for
    [test_dir.rglob("*.pdf")], the walk of the directory. *)
Definition create_test_suite (rglob : World -> string -> list string)
  : M unit :=
  let test_dir := "test-data" in
  mkdir test_dir ;;;
  mkdir (join test_dir "drawings") ;;;
  mkdir (join test_dir "scanned") ;;;
  mkdir (join test_dir "mixed") ;;;
  print CreatingFiles ;;;
  create_construction_drawing
    (join (join test_dir "drawings") "floor-plan-A101.pdf")
    "A-101" "2024-001" "A" ;;;
  create_construction_drawing
    (join (join test_dir "drawings") "site-plan-C100.pdf")
    "C-100" "2024-001" "B" ;;;
  create_construction_drawing
    (join (join test_dir "drawings") "details-A201.pdf")
    "A-201" "2024-001" "A" ;;;
  create_scanned_drawing
    (join (join test_dir "scanned") "legacy-drawing-scan.pdf") ;;;
  print (CreatedIn test_dir) ;;;
  print FilesCreated ;;;
  (fun w => list_files (rglob w test_dir) w).

(** The script as it is run (lines 8-19 and 229-230); the value is the
    exit status.  [imports] tells whether the imports of lines 9-16
    succeed.  They raise [ImportError] when reportlab is not installed and
    also when an imported name is missing, as [ARCH_D] is from the
    released [reportlab.lib.pagesizes]; the handler then prints its line
    and calls [sys.exit(1)], before any function of the script is
    defined. *)
Definition script (imports : bool)
  (rglob : World -> string -> list string) : M Z :=
  if imports then create_test_suite rglob ;;; ret 0
  else print ReportlabNotInstalled ;;; ret 1.

(** The world after the listing loop has printed [found]. *)
Definition listed (found : list string) (w : World) : World :=
  fold_left (fun w pdf_file => say (Listed pdf_file) w) found w.

(** The paths [create_test_suite] works on: the directories it makes,
    the files it creates and the temporary names used on the way. *)
Definition suite_dirs : list string :=
  ["test-data"; "test-data/drawings"; "test-data/scanned";
   "test-data/mixed"].

Definition suite_files : list string :=
  ["test-data/drawings/floor-plan-A101.pdf";
   "test-data/drawings/site-plan-C100.pdf";
   "test-data/drawings/details-A201.pdf";
   "test-data/scanned/legacy-drawing-scan.pdf"].

Definition suite_temps : list string :=
  ["test-data/drawings/floor-plan-A101_temp.pdf";
   "test-data/drawings/site-plan-C100_temp.pdf";
   "test-data/drawings/details-A201_temp.pdf"].

(** What the filesystem has to allow: no regular file where a directory
    is made, no directory where a file is written. *)
Definition suite_can_run (w : World) : Prop :=
  Forall (fun p => forall d, files w p <> File d) suite_dirs
  /\ Forall (fun p => files w p <> Directory) (suite_files ++ suite_temps).

(** An empty filesystem on a given day, and a walk that finds nothing. *)
Definition empty : World :=
  mkWorld (fun _ => Absent) "09/02/2025" [].

Definition no_walk (w : World) (dir : string) : list string := [].

End PdfGen.

(** * Properties *)

(** ** Counting and list helpers *)

Lemma sum_ones_from {A} (p : A -> bool) (l : list A) (acc : Z) :
  fold_left (fun acc r => if p r then acc + 1 else acc) l acc
  = acc + len (filter p l).
Proof.
  revert acc. unfold len.
  induction l as [| x l IH]; intros acc; simpl.
  - lia.
  - rewrite IH. destruct (p x); simpl length; lia.
Qed.

Lemma sum_ones_filter {A} (p : A -> bool) (l : list A) :
  sum_ones p l = len (filter p l).
Proof. unfold sum_ones. rewrite sum_ones_from. lia. Qed.

Lemma filter_split_length {A} (p : A -> bool) (l : list A) :
  len (filter p l) + len (filter (fun x => negb (p x)) l) = len l.
Proof.
  unfold len. induction l as [| x l IH]; simpl; [reflexivity |].
  destruct (p x); simpl length; lia.
Qed.

Lemma len_nil_iff {A} (l : list A) : (len l =? 0) = true <-> l = [].
Proof.
  unfold len. destruct l; simpl; split; intros H; try reflexivity;
    try discriminate; try lia.
Qed.

(** Unfolds the monad operations in a hypothesis or in the goal. *)
Ltac step H :=
  unfold bind, print, ret, raise in H; simpl in H.

Ltac run :=
  unfold bind, print, ret, raise; simpl.

(** ** ArtifactValidator *)

Section ArtifactValidator.

Variable host : Host.

Lemma check_outputs_spec w working_dir expected created missing :
  check_outputs host w working_dir expected created missing
  = ((created ++ filter (exists_in host w working_dir) expected)%list,
     (missing ++ filter (fun p => negb (exists_in host w working_dir p))
                        expected)%list).
Proof.
  revert created missing.
  induction expected as [| p rest IH]; intros created missing; simpl.
  - now rewrite !app_nil_r.
  - destruct (exists_in host w working_dir p); rewrite IH; simpl;
      now rewrite <- app_assoc.
Qed.

Lemma partition_as_filters {A} (f : A -> bool) (l : list A) :
  partition f l = (filter f l, filter (fun x => negb (f x)) l).
Proof.
  induction l as [| x l IH]; simpl; [reflexivity |].
  rewrite IH. now destruct (f x).
Qed.

(** C2.  [validate_outputs] always returns, leaves the world as it is,
    and its two lists are the input split by existence of each path
    under the working directory, each in input order; [success] holds
    exactly when nothing is missing, and the empty input gives two empty
    lists and success.  The three counters are the three lengths. *)
Theorem validate_outputs_partitions
  (expected_outputs : list string) (working_dir : string) (w : World) :
  exists v,
    validate_outputs host expected_outputs working_dir w = Return v w
    /\ (files_created v, files_missing v)
       = partition (exists_in host w working_dir) expected_outputs
    /\ files_created v
       = filter (exists_in host w working_dir) expected_outputs
    /\ files_missing v
       = filter (fun p => negb (exists_in host w working_dir p))
                expected_outputs
    /\ (ov_success v = true <-> files_missing v = [])
    /\ (expected_outputs = [] ->
        ov_success v = true /\ files_created v = [] /\ files_missing v = [])
    /\ total_expected v = len expected_outputs
    /\ created_count v = len (files_created v)
    /\ missing_count v = len (files_missing v)
    /\ created_count v + missing_count v = total_expected v.
Proof.
  unfold validate_outputs. rewrite check_outputs_spec. simpl.
  eexists. split; [reflexivity |]. simpl.
  repeat split; try reflexivity.
  - now rewrite partition_as_filters.
  - apply len_nil_iff.
  - apply len_nil_iff.
  - subst. reflexivity.
  - subst. reflexivity.
  - subst. reflexivity.
  - apply filter_split_length.
Qed.

End ArtifactValidator.

(** ** StructuredOutputValidator *)

Section StructuredOutputValidator.

Variable host : Host.

Lemma error_causes_differ (json_path detail : string) :
  "Invalid JSON: " ++ detail <> "JSON file not found: " ++ json_path.
Proof. simpl. intros H. discriminate H. Qed.

(** C4.  For a path that does not exist [validate_json_output] returns,
    whatever the required fields, the failure whose [error] is
    "JSON file not found: <path>"; that dictionary has no
    [missing_fields] and no [data_keys].  A file whose text the JSON
    parser rejects yields the failure "Invalid JSON: <detail>" instead,
    and the two causes are never equal. *)
Theorem missing_file_is_its_own_cause
  (json_path : string) (required_fields : list string) (w : World) :
  files w json_path = Absent ->
  exists r,
    validate_json_output host json_path required_fields w = Return r w
    /\ r = JsonError false ("JSON file not found: " ++ json_path)
    /\ jv_success r = false
    /\ jv_missing_fields r = None
    /\ jv_data_keys r = None
    /\ forall path' fields' w' text detail,
         files w' path' = File (Text text) ->
         json_loads host text = inl detail ->
         exists r',
           validate_json_output host path' fields' w' = Return r' w'
           /\ r' = JsonError false ("Invalid JSON: " ++ detail)
           /\ jv_missing_fields r' = None
           /\ jv_error r' <> jv_error r.
Proof.
  intros Habsent. unfold validate_json_output. rewrite Habsent.
  eexists. split; [reflexivity |].
  repeat split.
  intros path' fields' w' text detail Hfile Hparse.
  rewrite Hfile. simpl. rewrite Hparse.
  eexists. split; [reflexivity |]. repeat split.
  simpl. intros H.
  apply (error_causes_differ json_path detail). simpl. congruence.
Qed.

End StructuredOutputValidator.

(** ** ProcessRunner *)

Section ProcessRunner.

Variable host : Host.

(** [run_pipeline] never raises. *)
Lemma run_pipeline_returns self pipeline_path working_dir w :
  exists e w', run_pipeline host self pipeline_path working_dir w
               = Return e w'.
Proof.
  unfold run_pipeline, run_process, bind, time_time, ret.
  destruct (subprocess_run host _ working_dir 60 w)
    as [[rc out err | | msg] w']; eauto.
Qed.

(** C5.  When the call [subprocess.run(["node", cli, "run", pipeline],
    cwd=working_dir, ..., timeout=60)] raises [TimeoutExpired],
    [run_pipeline] returns success [False], exit code [-1], empty
    stdout, the fixed stderr message and the duration [60.0], which is the
    timeout given to the call. *)
Theorem run_pipeline_timeout
  (self : PipelineValidator) (pipeline_path working_dir : string)
  (w w' : World) :
  subprocess_run host ["node"; cli_path self; "run"; pipeline_path]
                 working_dir 60 w = (TimeoutExpired, w') ->
  run_pipeline host self pipeline_path working_dir w
  = Return (mkExecution false EmptyString
              "Pipeline execution timed out after 60 seconds"
              60%float (-1)) w'.
Proof.
  intros Hrun. unfold run_pipeline, run_process, bind, time_time, ret.
  now rewrite Hrun.
Qed.

End ProcessRunner.

(** ** The exit status of [main] *)

Lemma main_returns_exit_status host argv w code w' :
  main host argv w = Return code w' ->
  exists b w1,
    run_test_suite host (init default_cli) (config_file argv) w = Return b w1
    /\ code = exit_status b.
Proof.
  unfold main, bind. intros H.
  destruct (run_test_suite host _ _ w) as [b w1 | e w1]; [| discriminate].
  destruct (generate_report _ _ w1) as [[] w2 | e w2]; [| discriminate].
  unfold ret in H. injection H as <- _. now exists b, w1.
Qed.

(** ** SuiteRunner *)

Section SuiteRunner.

Variable host : Host.

Lemma validate_outputs_returns expected_outputs working_dir w :
  exists v, validate_outputs host expected_outputs working_dir w = Return v w.
Proof.
  unfold validate_outputs.
  destruct (check_outputs host w working_dir expected_outputs [] []).
  eauto.
Qed.

(** What a returned [test_pipeline] result always carries. *)
Lemma test_pipeline_shape self pipeline_name config w r w' :
  test_pipeline host self pipeline_name config w = Return r w' ->
  name r = pipeline_name
  /\ cfg_pipeline config = Some (pipeline r)
  /\ (output_validation r <> None
      <-> success (execution r) = true /\ cfg_expected_outputs config <> None)
  /\ (json_validations r <> None
      <-> success (execution r) = true /\ cfg_json_validations config <> None).
Proof.
  unfold test_pipeline, getitem. intros H. step H.
  destruct (cfg_pipeline config) as [p |]; [| discriminate]. step H.
  destruct (run_pipeline host self p _ _) as [e w1 | x w1]; [| discriminate].
  destruct (success e) eqn:Hs; step H.
  - destruct (cfg_expected_outputs config) as [outs |]; step H.
    + destruct (validate_outputs_returns outs (working_dir_of config)
                  (say (ExecutionSuccessful (duration e)) w1)) as [v Hv].
      rewrite Hv in H.
      destruct (ov_success v); step H;
        (destruct (cfg_json_validations config) as [entries |]; step H;
         [ destruct (check_json_files host entries [] _) as [d w2 | x w2];
           [| discriminate] |]);
        injection H as <- _; simpl; rewrite Hs;
        repeat split; intros; try discriminate; try tauto; try easy.
    + destruct (cfg_json_validations config) as [entries |]; step H;
        [ destruct (check_json_files host entries [] _) as [d w2 | x w2];
          [| discriminate] |];
        injection H as <- _; simpl; rewrite Hs;
        repeat split; intros; try discriminate; try tauto; try easy.
  - injection H as <- _. simpl. rewrite Hs.
    repeat split; intros; try discriminate; try tauto; try easy.
Qed.

(** [test_pipeline] on a case whose execution fails, and on a case that
    declares no validation. *)
Lemma test_pipeline_execution_only self pipeline_name config p w e w1 :
  cfg_pipeline config = Some p ->
  run_pipeline host self p (working_dir_of config)
               (announced pipeline_name p w) = Return e w1 ->
  (success e = false ->
   test_pipeline host self pipeline_name config w
   = Return (mkTestResult pipeline_name p e None None)
       (say (ErrorLine (stderr e)) (say (ExecutionFailed (duration e)) w1)))
  /\ (success e = true ->
      cfg_expected_outputs config = None ->
      cfg_json_validations config = None ->
      test_pipeline host self pipeline_name config w
      = Return (mkTestResult pipeline_name p e None None)
          (say (ExecutionSuccessful (duration e)) w1)).
Proof.
  intros Hp Hrun. unfold announced in Hrun.
  split; [intros Hs | intros Hs Houts Hjson];
    unfold test_pipeline, getitem; rewrite Hp; run; rewrite Hrun, Hs; run.
  - reflexivity.
  - now rewrite Houts, Hjson.
Qed.


(** C6.  Whenever [test_pipeline] returns a result, the result has the
    key [output_validation] exactly when the execution succeeded and the
    case declares [expected_outputs], and the key [json_validations]
    exactly when the execution succeeded and the case declares
    [json_validations].  A case with a pipeline whose execution fails
    always returns, with the execution record alone, and so does a
    successful case that declares neither validation. *)
Theorem validations_follow_execution
  (self : PipelineValidator) (pipeline_name : string) (config : CaseConfig)
  (w : World) :
  (forall r w',
     test_pipeline host self pipeline_name config w = Return r w' ->
     (output_validation r <> None
      <-> success (execution r) = true
          /\ cfg_expected_outputs config <> None)
     /\ (json_validations r <> None
         <-> success (execution r) = true
             /\ cfg_json_validations config <> None))
  /\ (forall p,
        cfg_pipeline config = Some p ->
        exists e w1,
          run_pipeline host self p (working_dir_of config)
                       (announced pipeline_name p w) = Return e w1
          /\ (success e = false ->
              test_pipeline host self pipeline_name config w
              = Return (mkTestResult pipeline_name p e None None)
                  (say (ErrorLine (stderr e))
                     (say (ExecutionFailed (duration e)) w1)))
          /\ (success e = true ->
              cfg_expected_outputs config = None ->
              cfg_json_validations config = None ->
              test_pipeline host self pipeline_name config w
              = Return (mkTestResult pipeline_name p e None None)
                  (say (ExecutionSuccessful (duration e)) w1))).
Proof.
  split.
  - intros r w' H. now apply test_pipeline_shape in H.
  - intros p Hp.
    destruct (run_pipeline_returns host self p (working_dir_of config)
                (announced pipeline_name p w)) as (e & w1 & Hrun).
    exists e, w1. split; [exact Hrun |].
    now apply test_pipeline_execution_only.
Qed.

Lemma run_tests_appends self tests acc w rs w' :
  run_tests host self tests acc w = Return rs w' ->
  exists new, rs = (acc ++ new)%list /\ Forall2 result_of_case tests new.
Proof.
  revert acc w. induction tests as [| [test_name test_config] rest IH];
    intros acc w H; simpl in H.
  - injection H as <- _. exists []. now rewrite app_nil_r.
  - step H.
    destruct (test_pipeline host self test_name test_config w)
      as [r w1 | x w1] eqn:Hcase; [| discriminate].
    apply IH in H as (new & -> & Hnew).
    exists (r :: new). rewrite <- app_assoc. split; [reflexivity |].
    constructor; [| exact Hnew].
    apply test_pipeline_shape in Hcase. split; simpl; tauto.
Qed.







End SuiteRunner.

(** ** The report and [main] *)

(** What [generate_report] writes for a validator fresh from [__init__]:
    [test_results] is the empty list. *)
Lemma report_of_fresh_validator timestamp teambeam_cli :
  report_json timestamp (init teambeam_cli)
  = JObj [("timestamp", JFloat timestamp);
          ("cli_path", JStr teambeam_cli);
          ("results", JArr []);
          ("summary",
           JObj [("total", JInt 0); ("passed", JInt 0); ("failed", JInt 0)])].
Proof. reflexivity. Qed.

Lemma generate_report_writes self output_path w w' :
  generate_report self output_path w = Return tt w' ->
  files w' output_path = File (JsonText (report_json (clock w) self))
  /\ console w' = (console w ++ [ReportSaved output_path])%list.
Proof.
  unfold generate_report, json_dump_to, time_time. intros H. step H.
  destruct (files w output_path); try discriminate;
    try (destruct output_path eqn:Hpath; [discriminate |];
         rewrite <- Hpath in *;
         destruct (parent_error w _); [discriminate |];
         destruct (ends_with_slash _); [discriminate |]);
    injection H as <-; simpl; now rewrite String.eqb_refl.
Qed.

(** C10.  When the configuration path does not exist (and the report path
    is not a directory), [run_test_suite] prints the diagnostic and
    returns [False] without touching files or clock, and [main] then
    writes the report, whose [results] is empty and whose three counters
    are zero, before exiting with status 1. *)
Theorem missing_config_still_reports
  (host : Host) (argv : list string) (w : World) :
  files w (config_file argv) = Absent ->
  files w "test-results.json" <> Directory ->
  run_test_suite host (init default_cli) (config_file argv) w
  = Return false (say (ConfigNotFound (config_file argv)) w)
  /\ main host argv w
     = Return 1
         (say (ReportSaved "test-results.json")
            (with_file (say (ConfigNotFound (config_file argv)) w)
               "test-results.json"
               (File (JsonText
                  (JObj [("timestamp", JFloat (clock w));
                         ("cli_path", JStr "./cli/dist/index.js");
                         ("results", JArr []);
                         ("summary",
                          JObj [("total", JInt 0);
                                ("passed", JInt 0);
                                ("failed", JInt 0)])]))))).
Proof.
  intros Hconfig Hreport.
  assert (Hsuite :
    run_test_suite host (init default_cli) (config_file argv) w
    = Return false (say (ConfigNotFound (config_file argv)) w)).
  { unfold run_test_suite, path_exists, bind. now rewrite Hconfig. }
  split; [exact Hsuite |].
  unfold main, bind. rewrite Hsuite.
  unfold generate_report, json_dump_to, time_time, bind, print, ret. simpl.
  destruct (files w "test-results.json"); [reflexivity | | reflexivity].
  now contradiction Hreport.
Qed.

(** C1 (the code departs from the claim).  Whatever the suite did, the
    report [main] writes has an empty [results] array and zero counters,
    because [generate_report] reads [self.test_results], which nothing
    fills; in the run below two cases were evaluated and the printed
    summary says so, while the report lists none. *)
Theorem report_never_lists_results :
  (forall host argv w code w',
     main host argv w = Return code w' ->
     exists timestamp,
       files w' "test-results.json"
       = File (JsonText
           (JObj [("timestamp", JFloat timestamp);
                  ("cli_path", JStr "./cli/dist/index.js");
                  ("results", JArr []);
                  ("summary",
                   JObj [("total", JInt 0);
                         ("passed", JInt 0);
                         ("failed", JInt 0)])])))
  /\ exists w',
       main Demo.host [] Demo.configured = Return 1 w'
       /\ console w'
          = [StartingSuite; ConfigLine "test-config.yaml";
             CliLine "./cli/dist/index.js";
             TestingPipeline "b"; PipelineLine "ok.yaml";
             ExecutionSuccessful 1.5%float; AllExpectedFilesCreated 1;
             TestingPipeline "a"; PipelineLine "fail.yaml";
             ExecutionFailed 0.5%float; ErrorLine "boom";
             SummaryHeader; TotalLine 2; PassedLine 1; FailedLine 1;
             SomeTestsFailed; ReportSaved "test-results.json"]
       /\ files w' "test-results.json"
          = File (JsonText
              (JObj [("timestamp", JFloat 102%float);
                     ("cli_path", JStr "./cli/dist/index.js");
                     ("results", JArr []);
                     ("summary",
                      JObj [("total", JInt 0);
                            ("passed", JInt 0);
                            ("failed", JInt 0)])])).
Proof.
  split.
  - intros host argv w code w'. unfold main, bind. intros H.
    destruct (run_test_suite host _ _ w) as [b w1 | e w1]; [| discriminate].
    destruct (generate_report _ _ w1) as [[] w2 | e w2] eqn:Hgen;
      [| discriminate].
    unfold ret in H. injection H as _ <-.
    apply generate_report_writes in Hgen as [Hfile _].
    exists (clock w1). rewrite Hfile.
    now rewrite report_of_fresh_validator.
  - eexists. split; [vm_compute; reflexivity |].
    split; reflexivity.
Qed.

(** C3 (the code departs from the claim).  The membership test is applied
    to whatever was parsed.  A JSON list that contains the string "a", and
    a JSON string that contains the letter, both pass the check for the
    required field "a" with no missing field; a JSON number makes the
    check raise [TypeError].  The reported keys are empty in the first two
    cases. *)
Theorem non_mapping_artifact_is_searched (host : Host) (w : World) :
  validate_json_output host "artifact" ["a"]
    (with_file w "artifact" (File (JsonText (JArr [JStr "a"]))))
  = Return (JsonFields true [] [] "list")
      (with_file w "artifact" (File (JsonText (JArr [JStr "a"]))))
  /\ validate_json_output host "artifact" ["a"]
       (with_file w "artifact" (File (JsonText (JStr "data"))))
     = Return (JsonFields true [] [] "str")
         (with_file w "artifact" (File (JsonText (JStr "data"))))
  /\ validate_json_output host "artifact" ["a"]
       (with_file w "artifact" (File (JsonText (JInt 42))))
     = Raise (TypeError "argument of type 'int' is not iterable")
         (with_file w "artifact" (File (JsonText (JInt 42)))).
Proof. repeat split. Qed.

(** C9 (the code departs from the claim).  [validate_json_output] handles
    [JSONDecodeError] only.  When the artifact path is a directory, or
    holds the JSON number 42, the exception leaves [validate_json_output],
    [test_pipeline] and the suite loop: the second case is never started,
    no summary is printed and [main] ends without writing the report. *)
Theorem artifact_errors_abort_the_suite :
  validate_json_output Demo.host "artifact" ["a"] (Demo.checking Directory)
  = Raise (IsADirectoryError "artifact") (Demo.checking Directory)
  /\ (exists w',
        main Demo.host [] (Demo.checking Directory)
        = Raise (IsADirectoryError "artifact") w'
        /\ console w'
           = [StartingSuite; ConfigLine "test-config.yaml";
              CliLine "./cli/dist/index.js";
              TestingPipeline "j"; PipelineLine "ok.yaml";
              ExecutionSuccessful 1.5%float]
        /\ files w' "test-results.json" = Absent)
  /\ (exists w',
        main Demo.host [] (Demo.checking (File (JsonText (JInt 42))))
        = Raise (TypeError "argument of type 'int' is not iterable") w'
        /\ console w'
           = [StartingSuite; ConfigLine "test-config.yaml";
              CliLine "./cli/dist/index.js";
              TestingPipeline "j"; PipelineLine "ok.yaml";
              ExecutionSuccessful 1.5%float]
        /\ files w' "test-results.json" = Absent).
Proof.
  split; [reflexivity |].
  split; (eexists; split; [vm_compute; reflexivity | split; reflexivity]).
Qed.

(** ** Further facts about the JSON check *)

Section JsonCheck.

Variable host : Host.

Lemma collect_missing_object members required_fields acc :
  collect_missing required_fields (JObj members) acc
  = inr (acc ++ fields_not_in members required_fields)%list.
Proof.
  revert acc. unfold fields_not_in.
  induction required_fields as [| field rest IH]; intros acc; simpl.
  - now rewrite app_nil_r.
  - destruct (existsb _ members); simpl; rewrite IH; [reflexivity |].
    now rewrite <- app_assoc.
Qed.

Lemma key_present members field :
  existsb (fun kv : string * json => String.eqb (fst kv) field) members = true
  <-> In field (map fst members).
Proof.
  rewrite existsb_exists, in_map_iff. split.
  - intros [kv [Hin Heq]]. apply String.eqb_eq in Heq. now exists kv.
  - intros [kv [Heq Hin]]. exists kv. split; [exact Hin |].
    now apply String.eqb_eq.
Qed.

(** X1.  When the artifact parses to an object, the result lists as missing
    the required fields that are not top-level keys, in the order of
    [required_fields]; it reports the object's keys and succeeds exactly
    when no field is missing. *)
Theorem object_missing_fields
  (json_path : string) (required_fields : list string) (w : World)
  (c : content) (members : list (string * json)) :
  files w json_path = File c ->
  json_load host c = inr (JObj members) ->
  validate_json_output host json_path required_fields w
  = Return (JsonFields (len (fields_not_in members required_fields) =? 0)
              (fields_not_in members required_fields)
              (map fst members) "dict") w
  /\ (forall field,
        In field (fields_not_in members required_fields)
        <-> In field required_fields /\ ~ In field (map fst members))
  /\ ((len (fields_not_in members required_fields) =? 0) = true
      <-> forall field, In field required_fields ->
                        In field (map fst members)).
Proof.
  intros Hfile Hload. unfold validate_json_output.
  rewrite Hfile, Hload, collect_missing_object. simpl.
  split; [reflexivity |].
  assert (Hmem : forall field,
            In field (fields_not_in members required_fields)
            <-> In field required_fields /\ ~ In field (map fst members)).
  { intros field. unfold fields_not_in. rewrite filter_In, negb_true_iff.
    rewrite <- key_present.
    destruct (existsb _ members); intuition congruence. }
  split; [exact Hmem |].
  rewrite len_nil_iff. split.
  - intros Hnil field Hin.
    destruct (in_dec string_dec field (map fst members)) as [Hk | Hk];
      [exact Hk |].
    exfalso. assert (Hm : In field (fields_not_in members required_fields))
      by (apply Hmem; tauto).
    rewrite Hnil in Hm. exact Hm.
  - intros Hall.
    destruct (fields_not_in members required_fields) as [| f l] eqn:Hf;
      [reflexivity |].
    exfalso. destruct (Hmem f) as [Hm _].
    destruct Hm as [Hin Hk]; [now left |]. apply Hk, Hall, Hin.
Qed.




End JsonCheck.

(** ** The theorems at work on concrete runs *)

(** C4 on an empty filesystem. *)
Lemma missing_file_is_its_own_cause_witness :
  files Demo.empty "artifact" = Absent
  /\ validate_json_output Demo.host "artifact" ["a"] Demo.empty
     = Return (JsonError false "JSON file not found: artifact") Demo.empty.
Proof.
  split; [reflexivity |].
  destruct (missing_file_is_its_own_cause Demo.host "artifact" ["a"]
              Demo.empty eq_refl) as (r & Hr & -> & _).
  exact Hr.
Defined.

(** C5 on the demo tool, which hangs on [slow.yaml]. *)
Lemma run_pipeline_timeout_witness :
  subprocess_run Demo.host
    ["node"; cli_path Demo.validator; "run"; "slow.yaml"] "." 60 Demo.empty
  = (TimeoutExpired, Demo.with_clock Demo.empty 160%float)
  /\ run_pipeline Demo.host Demo.validator "slow.yaml" "." Demo.empty
     = Return (mkExecution false EmptyString
                 "Pipeline execution timed out after 60 seconds"
                 60%float (-1))
         (Demo.with_clock Demo.empty 160%float).
Proof.
  split; [reflexivity |].
  apply (run_pipeline_timeout Demo.host Demo.validator "slow.yaml" "."
           Demo.empty (Demo.with_clock Demo.empty 160%float)).
  reflexivity.
Defined.

(** C6 on case [b], whose run succeeds and which declares expected
    outputs only. *)
Lemma validations_follow_execution_witness :
  exists r w',
    test_pipeline Demo.host Demo.validator "b" Demo.case_b Demo.empty
    = Return r w'
    /\ output_validation r <> None
    /\ json_validations r = None.
Proof.
  assert (E : exists r w',
            test_pipeline Demo.host Demo.validator "b" Demo.case_b Demo.empty
            = Return r w'
            /\ success (execution r) = true).
  { eexists. eexists. split; [vm_compute; reflexivity | reflexivity]. }
  destruct E as (r & w' & E & Hs).
  exists r, w'. split; [exact E |].
  destruct (proj1 (validations_follow_execution Demo.host Demo.validator
                     "b" Demo.case_b Demo.empty) r w' E) as [Hov Hjv].
  split.
  - apply Hov. split; [exact Hs | discriminate].
  - destruct (json_validations r) as [d |] eqn:Hd; [| reflexivity].
    exfalso.
    assert (Hsome : Some d <> None) by discriminate.
    apply Hjv in Hsome. destruct Hsome as [_ Hdecl]. now apply Hdecl.
Defined.

(** C10 on an empty filesystem. *)
Lemma missing_config_still_reports_witness :
  files Demo.empty (config_file []) = Absent
  /\ files Demo.empty "test-results.json" <> Directory
  /\ exists w',
       main Demo.host [] Demo.empty = Return 1 w'
       /\ console w'
          = [ConfigNotFound "test-config.yaml";
             ReportSaved "test-results.json"]
       /\ files w' "test-results.json"
          = File (JsonText
              (JObj [("timestamp", JFloat 100%float);
                     ("cli_path", JStr "./cli/dist/index.js");
                     ("results", JArr []);
                     ("summary",
                      JObj [("total", JInt 0);
                            ("passed", JInt 0);
                            ("failed", JInt 0)])])).
Proof.
  assert (Hreport : files Demo.empty "test-results.json" <> Directory)
    by discriminate.
  split; [reflexivity |]. split; [exact Hreport |].
  eexists. split.
  - exact (proj2 (missing_config_still_reports Demo.host [] Demo.empty
                    eq_refl Hreport)).
  - split; reflexivity.
Defined.

(** X1 on the object with keys a and b, checked for the fields a, b
    and c. *)
Lemma object_missing_fields_witness :
  validate_json_output Demo.host "out.json" ["a"; "b"; "c"]
    (with_file Demo.empty "out.json"
       (File (JsonText (JObj [("a", JInt 1); ("b", JInt 2)]))))
  = Return (JsonFields false ["c"] ["a"; "b"] "dict")
      (with_file Demo.empty "out.json"
         (File (JsonText (JObj [("a", JInt 1); ("b", JInt 2)])))).
Proof.
  exact (proj1 (object_missing_fields Demo.host "out.json" ["a"; "b"; "c"]
                  (with_file Demo.empty "out.json"
                     (File (JsonText (JObj [("a", JInt 1); ("b", JInt 2)]))))
                  (JsonText (JObj [("a", JInt 1); ("b", JInt 2)]))
                  [("a", JInt 1); ("b", JInt 2)] eq_refl eq_refl)).
Defined.


(** * Further properties of the harness *)

(** ** ProcessRunner, every outcome *)

Section ProcessRunnerOutcomes.

Variable host : Host.

(** X3.  [run_pipeline] never raises and has no effect of its own: it
    launches [node <cli> run <pipeline>] once, in the working directory
    and with timeout 60, and the world it leaves is the one that call
    leaves.  It reports success exactly when the process completed with
    return code 0; a completed process is reported with its own return
    code and streams and the elapsed clock difference, while a timeout or
    a failure to launch gives exit code [-1] and an empty stdout, the
    launch failure with the exception text as stderr. *)
Theorem run_pipeline_classifies
  (self : PipelineValidator) (pipeline_path working_dir : string)
  (w : World) :
  exists e,
    run_pipeline host self pipeline_path working_dir w
    = Return e (snd (subprocess_run host
                       ["node"; cli_path self; "run"; pipeline_path]
                       working_dir 60 w))
    /\ (success e = true
        <-> exists out err,
              fst (subprocess_run host
                     ["node"; cli_path self; "run"; pipeline_path]
                     working_dir 60 w) = Completed 0 out err)
    /\ (forall rc out err w',
          subprocess_run host ["node"; cli_path self; "run"; pipeline_path]
                         working_dir 60 w = (Completed rc out err, w') ->
          e = mkExecution (rc =? 0) out err
                (PrimFloat.sub (clock w') (clock w)) rc)
    /\ (forall msg w',
          subprocess_run host ["node"; cli_path self; "run"; pipeline_path]
                         working_dir 60 w = (OtherException msg, w') ->
          e = mkExecution false EmptyString msg
                (PrimFloat.sub (clock w') (clock w)) (-1))
    /\ ((forall rc out err,
           fst (subprocess_run host
                  ["node"; cli_path self; "run"; pipeline_path]
                  working_dir 60 w) <> Completed rc out err) ->
        success e = false /\ exit_code e = -1 /\ stdout e = EmptyString).
Proof.
  unfold run_pipeline, run_process, bind, time_time, ret.
  destruct (subprocess_run host _ working_dir 60 w)
    as [[rc out err | | msg] w'] eqn:Hrun; simpl;
    eexists; (split; [reflexivity |]); simpl.
  - split; [| split; [| split; [| ]]].
    + split.
      * intros Hz. apply Z.eqb_eq in Hz. subst rc. now exists out, err.
      * intros (o & e' & Heq). injection Heq as -> _ _. reflexivity.
    + intros rc' out' err' w'' Heq. now injection Heq as <- <- <- <-.
    + intros msg w'' Heq. discriminate Heq.
    + intros Hnot. now contradiction (Hnot rc out err).
  - split; [| split; [| split; [| ]]].
    + split; [discriminate | intros (o & e' & Heq); discriminate Heq].
    + intros rc' out' err' w'' Heq. discriminate Heq.
    + intros msg w'' Heq. discriminate Heq.
    + intros _. repeat split.
  - split; [| split; [| split; [| ]]].
    + split; [discriminate | intros (o & e' & Heq); discriminate Heq].
    + intros rc' out' err' w'' Heq. discriminate Heq.
    + intros msg' w'' Heq. now injection Heq as <- <-.
    + intros _. repeat split.
Qed.

End ProcessRunnerOutcomes.

(** ** StructuredOutputValidator, scalars and frames *)

Section JsonCheckFrames.

Variable host : Host.

(** [validate_json_output] only reads: whatever the outcome, the world
    is the one it was given. *)
Lemma validate_json_output_reads json_path required_fields w :
  (forall v w',
     validate_json_output host json_path required_fields w = Return v w' ->
     w' = w)
  /\ (forall e w',
        validate_json_output host json_path required_fields w = Raise e w' ->
        w' = w).
Proof.
  unfold validate_json_output.
  destruct (files w json_path) as [| | c].
  - split; intros ? ? H; [now injection H | discriminate].
  - split; intros ? ? H; [discriminate | now injection H].
  - destruct (json_load host c) as [detail | data].
    + split; intros ? ? H; [now injection H | discriminate].
    + destruct (collect_missing required_fields data []);
        split; intros ? ? H; try discriminate; now injection H.
Qed.

(** Its answer depends on the node at the path and on nothing else. *)
Lemma validate_json_output_local json_path required_fields w1 w2 v :
  files w2 json_path = files w1 json_path ->
  validate_json_output host json_path required_fields w1 = Return v w1 ->
  validate_json_output host json_path required_fields w2 = Return v w2.
Proof.
  unfold validate_json_output. intros ->.
  destruct (files w1 json_path) as [| | c].
  - intros H. injection H as <-. reflexivity.
  - discriminate.
  - destruct (json_load host c) as [detail | data].
    + intros H. injection H as <-. reflexivity.
    + destruct (collect_missing required_fields data []);
        [discriminate |].
      intros H. injection H as <-. reflexivity.
Qed.

(** X4.  For an artifact that parses to a number, a boolean or null, the
    check succeeds with nothing missing when no field is required, and
    raises [TypeError] as soon as one field is required; in neither case
    is a failure recorded as data. *)
Theorem scalar_artifact_check
  (json_path : string) (required_fields : list string) (w : World)
  (c : content) (data : json) :
  files w json_path = File c ->
  json_load host c = inr data ->
  is_scalar data = true ->
  (required_fields = [] ->
   validate_json_output host json_path required_fields w
   = Return (JsonFields true [] [] (type_name data)) w)
  /\ (required_fields <> [] ->
      validate_json_output host json_path required_fields w
      = Raise (not_iterable data) w).
Proof.
  intros Hfile Hload Hscalar. unfold validate_json_output.
  rewrite Hfile, Hload. split.
  - intros ->. simpl. now destruct data.
  - intros Hne. destruct required_fields as [| field rest];
      [contradiction |].
    now destruct data.
Qed.

(** With no required field, every artifact that parses passes the
    check, whatever kind of JSON value it holds. *)
Lemma no_required_field_passes
  (json_path : string) (w : World) (c : content) (data : json) :
  files w json_path = File c ->
  json_load host c = inr data ->
  validate_json_output host json_path [] w
  = Return (JsonFields true [] (keys_of data) (type_name data)) w.
Proof.
  intros Hfile Hload. unfold validate_json_output.
  now rewrite Hfile, Hload.
Qed.

End JsonCheckFrames.

(** ** SuiteRunner: what the recorded validations say *)

Section RecordedValidations.

Variable host : Host.

Lemma dict_set_In {V} (d : list (string * V)) k x f v :
  In (f, v) (dict_set d k x) -> (f = k /\ v = x) \/ In (f, v) d.
Proof.
  induction d as [| [k' v'] rest IH]; simpl.
  - intros [H | []]. injection H as <- <-. now left.
  - destruct (String.eqb_spec k' k) as [-> | Hne]; simpl.
    + intros [H | H]; [injection H as <- <-; now left | right; now right].
    + intros [H | H]; [right; now left |].
      destruct (IH H) as [Heq | Hin]; [now left | right; now right].
Qed.

Lemma dict_set_new_key {V} (d : list (string * V)) k x :
  ~ In k (map fst d) -> map fst (dict_set d k x) = (map fst d ++ [k])%list.
Proof.
  induction d as [| [k' v'] rest IH]; simpl; intros Hnot; [reflexivity |].
  destruct (String.eqb_spec k' k) as [-> | Hne]; [tauto |].
  simpl. rewrite IH; [reflexivity | tauto].
Qed.

Lemma exists_in_files w1 w2 working_dir :
  files w2 = files w1 ->
  exists_in host w2 working_dir = exists_in host w1 working_dir.
Proof. unfold exists_in. now intros ->. Qed.

Lemma check_outputs_files w1 w2 working_dir expected created missing :
  files w2 = files w1 ->
  check_outputs host w2 working_dir expected created missing
  = check_outputs host w1 working_dir expected created missing.
Proof.
  intros Hfiles. revert created missing.
  induction expected as [| p rest IH]; intros created missing; simpl;
    [reflexivity |].
  rewrite (exists_in_files w1 w2 working_dir Hfiles).
  destruct (exists_in host w1 working_dir p); apply IH.
Qed.

Lemma validate_outputs_files w1 w2 expected working_dir v :
  files w2 = files w1 ->
  validate_outputs host expected working_dir w1 = Return v w1 ->
  validate_outputs host expected working_dir w2 = Return v w2.
Proof.
  unfold validate_outputs. intros Hfiles.
  rewrite (check_outputs_files w1 w2 working_dir expected [] [] Hfiles).
  destruct (check_outputs host w1 working_dir expected [] []).
  intros H. injection H as <-. reflexivity.
Qed.

(** The loop over the JSON checks prints and reads: files and clock are
    left alone, every recorded answer is the answer for one declared
    entry, and distinct paths are recorded in declaration order. *)
Lemma check_json_files_inv entries done w d w' :
  check_json_files host entries done w = Return d w' ->
  files w' = files w
  /\ clock w' = clock w
  /\ (forall f v,
        In (f, v) d ->
        In (f, v) done
        \/ exists fields,
             In (f, fields) entries
             /\ validate_json_output host f fields w' = Return v w')
  /\ (NoDup (map fst entries) ->
      (forall k, In k (map fst entries) -> ~ In k (map fst done)) ->
      map fst d = (map fst done ++ map fst entries)%list).
Proof.
  revert done w.
  induction entries as [| [json_file fields] rest IH]; intros done w H;
    simpl in H.
  - injection H as <- <-. repeat split; try reflexivity.
    + intros f v Hin. now left.
    + intros _ _. simpl. now rewrite app_nil_r.
  - unfold bind at 1 in H.
    destruct (validate_json_output host json_file fields w)
      as [jv w1 | x w1] eqn:Hv; [| discriminate].
    pose proof (proj1 (validate_json_output_reads host json_file fields w)
                  jv w1 Hv) as ->.
    unfold bind at 1 in H.
    assert (Hnext : exists l,
              check_json_files host rest (dict_set done json_file jv)
                (say l w) = Return d w').
    { destruct (jv_success jv); unfold print at 1 in H; eauto. }
    clear H. destruct Hnext as [l H].
    apply IH in H as (Hfiles & Hclock & Hans & Hkeys).
    simpl in Hfiles, Hclock.
    split; [exact Hfiles |]. split; [exact Hclock |]. split.
    + intros f v Hin. destruct (Hans f v Hin) as [Hdone | Hrest].
      * apply dict_set_In in Hdone as [[-> ->] | Hdone]; [| now left].
        right. exists fields. split; [now left |].
        apply (validate_json_output_local host json_file fields w w' jv);
          [now rewrite Hfiles | exact Hv].
      * right. destruct Hrest as (fs & Hin' & Hval).
        exists fs. split; [now right | exact Hval].
    + intros Hnodup Hfresh. simpl in Hnodup. inversion Hnodup as [| ? ? Hk Hnd].
      subst. simpl.
      assert (Hnew : ~ In json_file (map fst done))
        by (apply Hfresh; now left).
      rewrite Hkeys; [| exact Hnd |].
      * rewrite (dict_set_new_key done json_file jv Hnew).
        now rewrite <- app_assoc.
      * intros k Hin. rewrite (dict_set_new_key done json_file jv Hnew).
        rewrite in_app_iff. intros [Hold | [<- | []]].
        -- apply (Hfresh k); [now right | exact Hold].
        -- now apply Hk.
Qed.

(** Where the parts of a returned [test_pipeline] result come from. *)
Lemma test_pipeline_inv self pipeline_name config w r w' :
  test_pipeline host self pipeline_name config w = Return r w' ->
  exists p e w1,
    cfg_pipeline config = Some p
    /\ run_pipeline host self p (working_dir_of config)
                    (announced pipeline_name p w) = Return e w1
    /\ execution r = e
    /\ files w' = files w1
    /\ clock w' = clock w1
    /\ (forall v,
          output_validation r = Some v ->
          exists outs,
            cfg_expected_outputs config = Some outs
            /\ validate_outputs host outs (working_dir_of config) w1
               = Return v w1)
    /\ (forall d,
          json_validations r = Some d ->
          exists entries w2,
            cfg_json_validations config = Some entries
            /\ files w2 = files w1
            /\ clock w2 = clock w1
            /\ check_json_files host entries [] w2 = Return d w').
Proof.
  unfold test_pipeline, getitem. intros H. step H.
  destruct (cfg_pipeline config) as [p |]; [| discriminate]. step H.
  destruct (run_pipeline host self p _ _) as [e w1 | x w1] eqn:Hrun;
    [| discriminate].
  exists p, e, w1. split; [reflexivity |]. split; [exact Hrun |].
  destruct (success e) eqn:Hs; step H.
  - destruct (cfg_expected_outputs config) as [outs |]; step H.
    + destruct (validate_outputs_returns host outs (working_dir_of config)
                  (say (ExecutionSuccessful (duration e)) w1)) as [v Hv].
      rewrite Hv in H.
      assert (Hv1 : validate_outputs host outs (working_dir_of config) w1
                    = Return v w1)
        by (apply (validate_outputs_files
                     (say (ExecutionSuccessful (duration e)) w1) w1
                     outs _ v eq_refl Hv)).
      destruct (ov_success v); step H;
        (destruct (cfg_json_validations config) as [entries |]; step H;
         [ match type of H with
           | context [check_json_files host entries [] ?w2] =>
               destruct (check_json_files host entries [] w2)
                 as [d w3 | x w3] eqn:Hc; [| discriminate];
               injection H as <- <-;
               destruct (check_json_files_inv _ _ _ _ _ Hc)
                 as (Hf & Hcl & _); simpl in Hf, Hcl;
               repeat split; try assumption; try reflexivity;
               [ intros v' Hv'; injection Hv' as <-; now exists outs
               | intros d' Hd'; injection Hd' as <-;
                 exists entries, w2; now repeat split ]
           end
         | injection H as <- <-; simpl;
           repeat split; try reflexivity;
           [ intros v' Hv'; injection Hv' as <-; now exists outs
           | intros d' Hd'; discriminate Hd' ] ]).
    + destruct (cfg_json_validations config) as [entries |]; step H.
      * match type of H with
        | context [check_json_files host entries [] ?w2] =>
            destruct (check_json_files host entries [] w2)
              as [d w3 | x w3] eqn:Hc; [| discriminate];
            injection H as <- <-;
            destruct (check_json_files_inv _ _ _ _ _ Hc)
              as (Hf & Hcl & _); simpl in Hf, Hcl;
            repeat split; try assumption; try reflexivity;
            [ intros v' Hv'; discriminate Hv'
            | intros d' Hd'; injection Hd' as <-;
              exists entries, w2; now repeat split ]
        end.
      * injection H as <- <-. simpl.
        repeat split; try reflexivity; intros ? Hx; discriminate Hx.
  - injection H as <- <-. simpl.
    repeat split; try reflexivity; intros ? Hx; discriminate Hx.
Qed.

(** X5.  The JSON checks recorded in a result are made on the paths as
    the configuration gives them, not joined with the case's working
    directory: every recorded answer is the answer of
    [validate_json_output] for a declared entry in the world the case
    leaves, so a path absent from there is recorded as "JSON file not
    found".  With distinct paths the record lists them in declaration
    order. *)
Theorem json_checks_use_paths_as_given
  (self : PipelineValidator) (pipeline_name : string) (config : CaseConfig)
  (w : World) (r : TestResult) (w' : World)
  (d : list (string * JsonValidation)) :
  test_pipeline host self pipeline_name config w = Return r w' ->
  json_validations r = Some d ->
  exists entries,
    cfg_json_validations config = Some entries
    /\ (forall f v,
          In (f, v) d ->
          exists fields,
            In (f, fields) entries
            /\ validate_json_output host f fields w' = Return v w')
    /\ (forall f v,
          In (f, v) d ->
          files w' f = Absent ->
          v = JsonError false ("JSON file not found: " ++ f))
    /\ (NoDup (map fst entries) -> map fst d = map fst entries).
Proof.
  intros Hrun Hd.
  destruct (test_pipeline_inv _ _ _ _ _ _ Hrun)
    as (p & e & w1 & _ & _ & _ & _ & _ & _ & Hjson).
  destruct (Hjson d Hd) as (entries & w2 & Hdecl & _ & _ & Hc).
  destruct (check_json_files_inv _ _ _ _ _ Hc) as (_ & _ & Hans & Hkeys).
  assert (Hrec : forall f v,
            In (f, v) d ->
            exists fields,
              In (f, fields) entries
              /\ validate_json_output host f fields w' = Return v w').
  { intros f v Hin. destruct (Hans f v Hin) as [[] | Hex]. exact Hex. }
  exists entries. split; [exact Hdecl |]. split; [exact Hrec |]. split.
  - intros f v Hin Habsent.
    destruct (Hrec f v Hin) as (fields & _ & Hval).
    unfold validate_json_output in Hval. rewrite Habsent in Hval.
    now injection Hval as <-.
  - intros Hnodup. apply (Hkeys Hnodup). intros k _ [].
Qed.

(** X6.  The artifact check recorded in a result reflects the files the
    tool left behind: the created files are the expected outputs that
    exist under the case's working directory (the current directory when
    none is given) in the world the case leaves, the missing ones are the
    others, both in declaration order, and the check succeeds exactly when
    every expected output exists. *)
Theorem artifact_check_reflects_files
  (self : PipelineValidator) (pipeline_name : string) (config : CaseConfig)
  (w : World) (r : TestResult) (w' : World) (v : OutputValidation) :
  test_pipeline host self pipeline_name config w = Return r w' ->
  output_validation r = Some v ->
  exists outs,
    cfg_expected_outputs config = Some outs
    /\ files_created v
       = filter (exists_in host w' (working_dir_of config)) outs
    /\ files_missing v
       = filter (fun p => negb (exists_in host w' (working_dir_of config) p))
                outs
    /\ (ov_success v = true
        <-> forall p, In p outs ->
                      exists_in host w' (working_dir_of config) p = true).
Proof.
  intros Hrun Hv.
  destruct (test_pipeline_inv _ _ _ _ _ _ Hrun)
    as (p & e & w1 & _ & _ & _ & Hfiles & _ & Hout & _).
  destruct (Hout v Hv) as (outs & Hdecl & Hval).
  exists outs. split; [exact Hdecl |].
  rewrite (exists_in_files w1 w' (working_dir_of config) Hfiles).
  unfold validate_outputs in Hval. rewrite check_outputs_spec in Hval.
  injection Hval as <-. simpl.
  split; [reflexivity |]. split; [reflexivity |].
  rewrite len_nil_iff. split.
  - intros Hnil q Hin.
    destruct (exists_in host w1 (working_dir_of config) q) eqn:Hq;
      [reflexivity |].
    assert (Hm : In q (filter
              (fun p => negb (exists_in host w1 (working_dir_of config) p))
              outs)) by (apply filter_In; now rewrite Hq).
    rewrite Hnil in Hm. contradiction.
  - intros Hall.
    destruct (filter
              (fun p => negb (exists_in host w1 (working_dir_of config) p))
              outs) as [| q l] eqn:Hf; [reflexivity |].
    assert (Hm : In q (filter
              (fun p => negb (exists_in host w1 (working_dir_of config) p))
              outs)) by (rewrite Hf; now left).
    apply filter_In in Hm as [Hin Hq]. rewrite (Hall q Hin) in Hq.
    discriminate Hq.
Qed.

End RecordedValidations.

(** ** The suite as a whole *)

Section WholeSuite.

Variable host : Host.

Lemma all_pass_forallb {A} (p : A -> bool) (l : list A) :
  (len (filter p l) =? len l) = forallb p l.
Proof.
  induction l as [| x l IH]; [reflexivity |].
  pose proof (filter_split_length p l) as Hsplit. cbv beta in Hsplit.
  unfold len in *. cbn [filter forallb].
  destruct (p x); cbn [length andb].
  - rewrite <- IH.
    destruct (Z.eqb_spec (Z.of_nat (length (filter p l)))
                (Z.of_nat (length l)));
      destruct (Z.eqb_spec (Z.of_nat (S (length (filter p l))))
                  (Z.of_nat (S (length l)))); try reflexivity; lia.
  - apply Z.eqb_neq. lia.
Qed.

Lemma summarize_signal all_results w :
  exists w',
    summarize all_results w
    = Return (forallb (fun r => success (execution r)) all_results) w'
    /\ files w' = files w
    /\ clock w' = clock w.
Proof.
  unfold summarize. rewrite sum_ones_filter, all_pass_forallb.
  unfold bind, print, ret.
  destruct (forallb _ all_results); eexists; repeat split.
Qed.

Lemma run_setup_world cmds w :
  run_setup host cmds w = Return tt (after_setup host cmds w).
Proof.
  revert w. induction cmds as [| cmd rest IH]; intros w; simpl;
    [reflexivity |].
  unfold bind, print. simpl. apply IH.
Qed.

(** [run_test_suite] on a configuration that loads: header, setup, the
    loop, the summary. *)
Lemma run_test_suite_loaded self config_path c config w :
  files w config_path = File c ->
  yaml_safe_load host c = inr config ->
  run_test_suite host self config_path w
  = match run_tests host self (tests_of config) []
            (suite_started host self config_path config w) with
    | Return all_results w1 => summarize all_results w1
    | Raise e w1 => Raise e w1
    end.
Proof.
  intros Hfile Hload.
  unfold run_test_suite, path_exists, load_config, bind. rewrite Hfile.
  simpl. rewrite Hfile, Hload. unfold print, suite_started, tests_of. simpl.
  destruct (cfg_setup config) as [cmds |]; simpl.
  - unfold bind, print. simpl. now rewrite run_setup_world.
  - reflexivity.
Qed.

Lemma run_tests_app self a b acc w :
  run_tests host self (a ++ b) acc w
  = match run_tests host self a acc w with
    | Return all_results w1 => run_tests host self b all_results w1
    | Raise e w1 => Raise e w1
    end.
Proof.
  revert acc w. induction a as [| [test_name test_config] rest IH];
    intros acc w; simpl; [reflexivity |].
  unfold bind.
  destruct (test_pipeline host self test_name test_config w)
    as [r w1 | e w1]; [apply IH | reflexivity].
Qed.

(** X7.  The loop threads the world through the cases in order: running
    the cases [a ++ b] is running [a], then running [b] from the results
    and the world [a] left; an exception in [a] ends the loop there, so
    no case of [b] is started. *)
Theorem run_tests_in_sequence
  (self : PipelineValidator) (a b : list (string * CaseConfig))
  (acc : list TestResult) (w : World) :
  (forall all_results w1,
     run_tests host self a acc w = Return all_results w1 ->
     run_tests host self (a ++ b) acc w
     = run_tests host self b all_results w1)
  /\ (forall e w1,
        run_tests host self a acc w = Raise e w1 ->
        run_tests host self (a ++ b) acc w = Raise e w1).
Proof.
  split.
  - intros all_results w1 H. now rewrite run_tests_app, H.
  - intros e w1 H. now rewrite run_tests_app, H.
Qed.

(** X8.  A case without the key [pipeline] stops the suite: once the
    cases before it have been evaluated, the loop announces the case and
    raises [KeyError] in that world, so the tool is not launched for it
    and no later case is started. *)
Theorem case_without_pipeline_stops_the_suite
  (self : PipelineValidator) (before after : list (string * CaseConfig))
  (test_name : string) (test_config : CaseConfig)
  (w : World) (all_results : list TestResult) (w1 : World) :
  cfg_pipeline test_config = None ->
  run_tests host self before [] w = Return all_results w1 ->
  run_tests host self (before ++ (test_name, test_config) :: after) [] w
  = Raise (KeyError "pipeline") (say (TestingPipeline test_name) w1).
Proof.
  intros Hnone Hbefore. rewrite run_tests_app, Hbefore. simpl.
  unfold bind, test_pipeline, getitem, print. now rewrite Hnone.
Qed.

(** X9.  For a configuration that loads, [run_test_suite] returns [True]
    exactly when the execution of every case succeeded: the value is the
    conjunction of [execution.success] over the results of the loop, one
    per configured case in order, whatever the artifact and JSON checks
    recorded; and it raises only what the loop raises. *)
Theorem suite_passes_iff_every_execution_succeeds
  (self : PipelineValidator) (config_path : string) (c : content)
  (config : SuiteConfig) (w : World) :
  files w config_path = File c ->
  yaml_safe_load host c = inr config ->
  (forall b w',
     run_test_suite host self config_path w = Return b w' ->
     exists all_results w1,
       run_tests host self (tests_of config) []
                 (suite_started host self config_path config w)
       = Return all_results w1
       /\ Forall2 result_of_case (tests_of config) all_results
       /\ b = forallb (fun r => success (execution r)) all_results
       /\ files w' = files w1)
  /\ (forall e w',
        run_test_suite host self config_path w = Raise e w' ->
        run_tests host self (tests_of config) []
                  (suite_started host self config_path config w)
        = Raise e w').
Proof.
  intros Hfile Hload.
  rewrite (run_test_suite_loaded self config_path c config w Hfile Hload).
  destruct (run_tests host self (tests_of config) [] _)
    as [all_results w1 | x w1] eqn:Hloop.
  - destruct (summarize_signal all_results w1) as (w2 & Hsum & Hf & _).
    rewrite Hsum. split.
    + intros b w' H. injection H as <- <-.
      exists all_results, w1. split; [reflexivity |].
      apply run_tests_appends in Hloop as (new & -> & Hnew).
      now repeat split.
    + intros e w' H. discriminate H.
  - split; [intros b w' H; discriminate H |].
    intros e w' H. injection H as <- <-. reflexivity.
Qed.

(** X10.  A configuration that loads but declares no test passes: the
    loop has nothing to run, the summary reports a total of zero,
    [run_test_suite] returns [True], and [main] exits with status 0
    provided the report can be written afterwards. *)
Theorem empty_suite_passes
  (argv : list string) (c : content) (config : SuiteConfig) (w : World) :
  files w (config_file argv) = File c ->
  yaml_safe_load host c = inr config ->
  tests_of config = [] ->
  exists w1,
    run_test_suite host (init default_cli) (config_file argv) w
    = Return true w1
    /\ console w1
       = (console (suite_started host (init default_cli)
                     (config_file argv) config w)
          ++ [SummaryHeader; TotalLine 0; PassedLine 0; FailedLine 0;
              AllTestsPassed])%list
    /\ files w1
       = files (suite_started host (init default_cli)
                  (config_file argv) config w)
    /\ (files w1 "test-results.json" <> Directory ->
        exists w2, main host argv w = Return 0 w2).
Proof.
  intros Hfile Hload Hnone.
  assert (Hsuite : run_test_suite host (init default_cli) (config_file argv) w
    = summarize []
        (suite_started host (init default_cli) (config_file argv) config w)).
  { rewrite (run_test_suite_loaded _ _ c config w Hfile Hload).
    now rewrite Hnone. }
  eexists. split; [rewrite Hsuite; reflexivity |].
  split; [simpl; now rewrite <- !app_assoc |].
  split; [reflexivity |].
  intros Hreport. unfold main, bind. rewrite Hsuite.
  unfold summarize, bind, print, ret. simpl.
  unfold generate_report, json_dump_to, time_time, bind, print, ret. simpl.
  simpl in Hreport.
  destruct (files (suite_started host (init default_cli)
                     (config_file argv) config w) "test-results.json");
    [eauto | contradiction | eauto].
Qed.

(** X11.  When the configuration path exists but cannot be loaded (it is
    a directory, or the YAML loader raises), [run_test_suite] raises
    before printing anything and [main] passes the exception on: the
    world is untouched, so unlike the case of a missing configuration no
    report is written. *)
Theorem unloadable_config_leaves_no_report
  (argv : list string) (w : World) (e : exn) (w0 : World) :
  files w (config_file argv) <> Absent ->
  load_config host (config_file argv) w = Raise e w0 ->
  w0 = w
  /\ run_test_suite host (init default_cli) (config_file argv) w = Raise e w
  /\ main host argv w = Raise e w.
Proof.
  intros Hexists Hload.
  assert (Hw : w0 = w).
  { unfold load_config in Hload.
    destruct (files w (config_file argv)) as [| | c];
      [now injection Hload | now injection Hload |].
    destruct (yaml_safe_load host c); [now injection Hload | discriminate]. }
  subst w0.
  assert (Hsuite :
    run_test_suite host (init default_cli) (config_file argv) w = Raise e w).
  { unfold run_test_suite, path_exists, bind.
    destruct (files w (config_file argv)) eqn:Hnode;
      [contradiction | |]; simpl; now rewrite Hload. }
  split; [reflexivity |]. split; [exact Hsuite |].
  unfold main, bind. now rewrite Hsuite.
Qed.

End WholeSuite.

(** ** The report file *)

(** At the path [main] uses, which names a file in the working
    directory, only a directory of that name stops the report. *)
Lemma generate_report_cases self w :
  (files w "test-results.json" = Directory ->
   generate_report self "test-results.json" w
   = Raise (IsADirectoryError "test-results.json") w)
  /\ (files w "test-results.json" <> Directory ->
      exists w', generate_report self "test-results.json" w = Return tt w').
Proof.
  unfold generate_report, json_dump_to, time_time, bind, print, ret.
  split.
  - intros ->. reflexivity.
  - intros Hnode.
    destruct (files w "test-results.json");
      [simpl; eauto | contradiction | eauto].
Qed.


(** X13.  In every report, whatever the validator holds, [results] has
    [total] entries, [passed] and [failed] are non-negative and add up to
    [total], and [passed] equals [total] exactly when every execution
    succeeded. *)
Theorem report_summary_is_consistent
  (timestamp : float) (self : PipelineValidator) :
  exists results total passed failed,
    report_json timestamp self
    = JObj [("timestamp", JFloat timestamp);
            ("cli_path", JStr (cli_path self));
            ("results", JArr results);
            ("summary",
             JObj [("total", JInt total);
                   ("passed", JInt passed);
                   ("failed", JInt failed)])]
    /\ total = len results
    /\ total = len (test_results self)
    /\ passed + failed = total
    /\ 0 <= passed
    /\ 0 <= failed
    /\ (passed = total
        <-> forallb (fun r => success (execution r)) (test_results self)
            = true).
Proof.
  unfold report_json. do 4 eexists. split; [reflexivity |].
  rewrite !sum_ones_filter.
  pose proof (filter_split_length (fun r => success (execution r))
                (test_results self)) as Hsplit.
  cbv beta in Hsplit.
  split; [unfold len; now rewrite length_map |].
  split; [reflexivity |]. split; [exact Hsplit |].
  split; [unfold len; lia |]. split; [unfold len; lia |].
  rewrite <- all_pass_forallb. symmetry. apply Z.eqb_eq.
Qed.

(** X14.  [main] ends with an exception in exactly two ways: the suite
    raised, and then [main] passes that exception on from the same world
    without calling [generate_report]; or the suite returned and the
    report path is a directory. *)
Theorem main_raises_iff
  (host : Host) (argv : list string) (w : World) (e : exn) (w' : World) :
  main host argv w = Raise e w'
  <-> run_test_suite host (init default_cli) (config_file argv) w
      = Raise e w'
      \/ exists b,
           run_test_suite host (init default_cli) (config_file argv) w
           = Return b w'
           /\ files w' "test-results.json" = Directory
           /\ e = IsADirectoryError "test-results.json".
Proof.
  unfold main, bind.
  destruct (run_test_suite host (init default_cli) (config_file argv) w)
    as [b w1 | x w1].
  - pose proof (generate_report_cases (init default_cli) w1)
      as [Hdir Hok].
    destruct (files w1 "test-results.json") eqn:Hn.
    + destruct Hok as (w2 & ->); [discriminate |]. unfold ret.
      split; [discriminate |].
      intros [H | (b' & H & Hd & _)]; [discriminate H |].
      injection H as _ <-. rewrite Hn in Hd. discriminate Hd.
    + rewrite (Hdir eq_refl). split.
      * intros H. injection H as <- <-. right. now exists b.
      * intros [H | (b' & H & _ & ->)]; [discriminate H |].
        now injection H as _ <-.
    + destruct Hok as (w2 & ->); [discriminate |]. unfold ret.
      split; [discriminate |].
      intros [H | (b' & H & Hd & _)]; [discriminate H |].
      injection H as _ <-. rewrite Hn in Hd. discriminate Hd.
  - split.
    + intros H. injection H as <- <-. now left.
    + intros [H | (b' & H & _)]; [| discriminate H].
      now injection H as <- <-.
Qed.

(** ** ReportAggregator and SuiteRunner: the summary and the results of
    the loop *)

Lemma summarize_counts all_results w :
  summarize all_results w
  = Return (len (filter (fun r => success (execution r)) all_results)
            =? len all_results)
      (say (if len (filter (fun r => success (execution r)) all_results)
               =? len all_results
            then AllTestsPassed else SomeTestsFailed)
         (say (FailedLine
                 (len all_results
                  - len (filter (fun r => success (execution r))
                           all_results)))
            (say (PassedLine
                    (len (filter (fun r => success (execution r))
                            all_results)))
               (say (TotalLine (len all_results)) (say SummaryHeader w))))).
Proof.
  unfold summarize. rewrite sum_ones_filter.
  unfold bind, print, ret.
  now destruct (_ =? _).
Qed.

(** The two ways in which [run_test_suite] returns: the configuration is
    missing, or it loaded and the loop returned. *)
Lemma run_test_suite_returns host self config_path w b w' :
  run_test_suite host self config_path w = Return b w' ->
  (files w config_path = Absent /\ b = false)
  \/ exists c config all_results w1,
       files w config_path = File c
       /\ yaml_safe_load host c = inr config
       /\ run_tests host self (tests_of config) []
                    (suite_started host self config_path config w)
          = Return all_results w1
       /\ summarize all_results w1 = Return b w'.
Proof.
  destruct (files w config_path) as [| | c] eqn:Hnode.
  - unfold run_test_suite, path_exists, bind. rewrite Hnode. simpl.
    unfold bind, print, ret. intros H. injection H as <- _. now left.
  - unfold run_test_suite, path_exists, load_config, bind.
    rewrite Hnode. simpl. rewrite Hnode. discriminate.
  - destruct (yaml_safe_load host c) as [x | config] eqn:Hload.
    + unfold run_test_suite, path_exists, load_config, bind.
      rewrite Hnode. simpl. rewrite Hnode, Hload. discriminate.
    + rewrite (run_test_suite_loaded host self config_path c config w
                 Hnode Hload).
      destruct (run_tests host self (tests_of config) [] _)
        as [all_results w1 | x w1] eqn:Hloop; [| discriminate].
      intros H. right. now exists c, config, all_results, w1.
Qed.


(** C7.  For every list of case results, the summary computes [total]
    as the length, [passed] as the number of results whose
    [execution.success] holds (no other field is read), prints
    [total - passed] as the number failed, which is the number of results
    whose execution did not succeed, and gives [passed == total].  That
    value is what [run_test_suite] returns when its loop ended with these
    results, and [main] then exits with 0 when it is true and 1 when it is
    not.  Conversely [run_test_suite] returns in two ways only: [False]
    for a missing configuration, and [passed == total] of the results of
    its loop; and every exit status of [main] is that of the value
    [run_test_suite] returned. *)
Theorem summary_counts :
  (forall (all_results : list TestResult) (w : World),
   exists total passed failed,
     total = len all_results
     /\ passed = len (filter (fun r => success (execution r)) all_results)
     /\ failed = total - passed
     /\ failed
        = len (filter (fun r => negb (success (execution r))) all_results)
     /\ summarize all_results w
        = Return (passed =? total)
            (say (if passed =? total then AllTestsPassed
                  else SomeTestsFailed)
               (say (FailedLine failed)
                  (say (PassedLine passed)
                     (say (TotalLine total) (say SummaryHeader w)))))
     /\ ((passed =? total) = true <-> passed = total)
     /\ (exit_status (passed =? total) = 0 <-> passed = total)
     /\ (exit_status (passed =? total) = 1 <-> passed <> total)
     /\ (forall host self config_path c config w0,
           files w0 config_path = File c ->
           yaml_safe_load host c = inr config ->
           run_tests host self (tests_of config) []
                     (suite_started host self config_path config w0)
           = Return all_results w ->
           run_test_suite host self config_path w0
           = Return (passed =? total)
               (say (if passed =? total then AllTestsPassed
                     else SomeTestsFailed)
                  (say (FailedLine failed)
                     (say (PassedLine passed)
                        (say (TotalLine total) (say SummaryHeader w))))))
     /\ (forall host argv c config w0,
           files w0 (config_file argv) = File c ->
           yaml_safe_load host c = inr config ->
           run_tests host (init default_cli) (tests_of config) []
                     (suite_started host (init default_cli)
                        (config_file argv) config w0)
           = Return all_results w ->
           files w "test-results.json" <> Directory ->
           exists w2,
             main host argv w0
             = Return (exit_status (passed =? total)) w2))
  /\ (forall host self config_path w0 b w',
        run_test_suite host self config_path w0 = Return b w' ->
        (files w0 config_path = Absent /\ b = false)
        \/ exists c config all_results w1,
             files w0 config_path = File c
             /\ yaml_safe_load host c = inr config
             /\ run_tests host self (tests_of config) []
                          (suite_started host self config_path config w0)
                = Return all_results w1
             /\ b = (len (filter (fun r => success (execution r))
                            all_results)
                     =? len all_results))
  /\ (forall host argv w0 code w1,
        main host argv w0 = Return code w1 ->
        exists b w2,
          run_test_suite host (init default_cli) (config_file argv) w0
          = Return b w2
          /\ code = exit_status b).
Proof.
  split; [| split].
  - intros all_results w.
    exists (len all_results),
           (len (filter (fun r => success (execution r)) all_results)),
           (len all_results
            - len (filter (fun r => success (execution r)) all_results)).
    pose proof (filter_split_length (fun r => success (execution r))
                  all_results) as Hsplit.
    cbv beta in Hsplit.
    split; [reflexivity |]. split; [reflexivity |].
    split; [reflexivity |]. split; [lia |].
    split; [apply summarize_counts |].
    split; [apply Z.eqb_eq |].
    split; [| split; [| split]].
    + unfold exit_status.
      destruct (Z.eqb_spec
        (len (filter (fun r => success (execution r)) all_results))
        (len all_results)); split; intros H;
        solve [trivial | discriminate | contradiction].
    + unfold exit_status.
      destruct (Z.eqb_spec
        (len (filter (fun r => success (execution r)) all_results))
        (len all_results)); split; intros H;
        solve [trivial | discriminate | contradiction].
    + intros host self config_path c config w0 Hfile Hload Hloop.
      rewrite (run_test_suite_loaded host self config_path c config w0
                 Hfile Hload), Hloop.
      apply summarize_counts.
    + intros host argv c config w0 Hfile Hload Hloop Hreport.
      unfold main, bind.
      rewrite (run_test_suite_loaded host (init default_cli)
                 (config_file argv) c config w0 Hfile Hload), Hloop.
      rewrite summarize_counts.
      match goal with
      | |- context [generate_report ?v ?p ?w1] =>
          destruct (generate_report_cases v w1) as [_ Hok];
          destruct Hok as (w2 & ->); [exact Hreport |]
      end.
      unfold ret. now exists w2.
  - intros host self config_path w0 b w' H.
    apply run_test_suite_returns in H
      as [H | (c & config & all_results & w1 & Hfile & Hload & Hloop & Hsum)];
      [now left |].
    right. exists c, config, all_results, w1.
    rewrite summarize_counts in Hsum. injection Hsum as <- _.
    now repeat split.
  - intros host argv w0 code w1. apply main_returns_exit_status.
Qed.


(** ** The further theorems at work on concrete runs *)

(** C7 on the two demo cases, of which the second fails: one of two
    passed, the suite returns [False] and [main] exits with 1. *)
Lemma summary_counts_witness :
  exists all_results w w2,
    run_tests Demo.host Demo.validator (tests_of Demo.suite) []
      (suite_started Demo.host Demo.validator "test-config.yaml"
         Demo.suite Demo.configured)
    = Return all_results w
    /\ len all_results = 2
    /\ len (filter (fun r => success (execution r)) all_results) = 1
    /\ run_test_suite Demo.host Demo.validator "test-config.yaml"
         Demo.configured
       = Return false
           (say SomeTestsFailed
              (say (FailedLine 1)
                 (say (PassedLine 1)
                    (say (TotalLine 2) (say SummaryHeader w)))))
    /\ main Demo.host [] Demo.configured = Return 1 w2.
Proof.
  eassert (Hloop :
    run_tests Demo.host Demo.validator (tests_of Demo.suite) []
      (suite_started Demo.host Demo.validator "test-config.yaml"
         Demo.suite Demo.configured)
    = Return _ _) by (vm_compute; reflexivity).
  destruct summary_counts as [Hsummary _].
  match type of Hloop with
  | _ = Return ?rs ?w1 =>
      destruct (Hsummary rs w1)
        as (total & passed & failed & -> & -> & -> & _ & _ & _ & _ & _
            & Hsuite & Hmain);
      destruct (Hmain Demo.host [] (Text "suite") Demo.suite Demo.configured
                  eq_refl eq_refl Hloop) as [w2 Hexit];
      [discriminate |];
      exists rs, w1, w2
  end.
  split; [exact Hloop |]. split; [reflexivity |]. split; [reflexivity |].
  split; [| exact Hexit].
  exact (Hsuite Demo.host Demo.validator "test-config.yaml" (Text "suite")
           Demo.suite Demo.configured eq_refl eq_refl Hloop).
Defined.





(** X4 on an artifact holding the number 42. *)
Lemma scalar_artifact_check_witness :
  validate_json_output Demo.host "artifact" [] Example.with_number
  = Return (JsonFields true [] [] "int") Example.with_number
  /\ validate_json_output Demo.host "artifact" ["a"] Example.with_number
     = Raise (TypeError "argument of type 'int' is not iterable")
         Example.with_number.
Proof.
  split.
  - exact (proj1 (scalar_artifact_check Demo.host "artifact" []
                    Example.with_number (JsonText (JInt 42)) (JInt 42)
                    eq_refl eq_refl eq_refl) eq_refl).
  - apply (proj2 (scalar_artifact_check Demo.host "artifact" ["a"]
                    Example.with_number (JsonText (JInt 42)) (JInt 42)
                    eq_refl eq_refl eq_refl)).
    discriminate.
Defined.

(** X5 on the case run in [build]: the JSON check looks for
    [report.json] in the current directory. *)
Lemma json_checks_use_paths_as_given_witness :
  exists r w' d,
    test_pipeline Demo.host Demo.validator "built" Example.built_case
      Example.in_build = Return r w'
    /\ json_validations r = Some d
    /\ d = [("report.json",
             JsonError false "JSON file not found: report.json")]
    /\ forall f v,
         In (f, v) d ->
         files w' f = Absent ->
         v = JsonError false ("JSON file not found: " ++ f).
Proof.
  eassert (E : test_pipeline Demo.host Demo.validator "built"
                 Example.built_case Example.in_build = Return _ _)
    by (vm_compute; reflexivity).
  do 3 eexists. split; [exact E |]. split; [reflexivity |].
  split; [reflexivity |].
  destruct (json_checks_use_paths_as_given Demo.host _ _ _ _ _ _ _ E eq_refl)
    as (entries & _ & _ & Habsent & _).
  exact Habsent.
Defined.

(** X6 on the same case: the artifact check looks under [build]. *)
Lemma artifact_check_reflects_files_witness :
  exists r w' v,
    test_pipeline Demo.host Demo.validator "built" Example.built_case
      Example.in_build = Return r w'
    /\ output_validation r = Some v
    /\ files_created v = ["report.json"]
    /\ exists outs,
         cfg_expected_outputs Example.built_case = Some outs
         /\ files_created v = filter (exists_in Demo.host w' "build") outs.
Proof.
  eassert (E : test_pipeline Demo.host Demo.validator "built"
                 Example.built_case Example.in_build = Return _ _)
    by (vm_compute; reflexivity).
  do 3 eexists. split; [exact E |]. split; [reflexivity |].
  split; [reflexivity |].
  destruct (artifact_check_reflects_files Demo.host _ _ _ _ _ _ _ E eq_refl)
    as (outs & Hdecl & Hcreated & _).
  exists outs. split; [exact Hdecl | exact Hcreated].
Defined.

(** X8 on a suite whose second case has no pipeline. *)
Lemma case_without_pipeline_stops_the_suite_witness :
  exists w1,
    run_tests Demo.host Demo.validator
      ([("b", Demo.case_b)] ++ ("x", Example.no_pipeline)
                            :: [("a", Demo.case_a)])
      [] Demo.empty
    = Raise (KeyError "pipeline") (say (TestingPipeline "x") w1).
Proof.
  eassert (E : run_tests Demo.host Demo.validator [("b", Demo.case_b)] []
                 Demo.empty = Return _ _)
    by (vm_compute; reflexivity).
  eexists.
  exact (case_without_pipeline_stops_the_suite Demo.host Demo.validator
           [("b", Demo.case_b)] [("a", Demo.case_a)] "x" Example.no_pipeline
           Demo.empty _ _ eq_refl E).
Defined.

(** X9 on the two demo cases, of which one fails. *)
Lemma suite_passes_iff_every_execution_succeeds_witness :
  exists b w' all_results,
    run_test_suite Demo.host Demo.validator "test-config.yaml"
      Demo.configured = Return b w'
    /\ b = false
    /\ b = forallb (fun r => success (execution r)) all_results
    /\ Forall2 result_of_case Demo.tests all_results.
Proof.
  eassert (E : run_test_suite Demo.host Demo.validator "test-config.yaml"
                 Demo.configured = Return _ _)
    by (vm_compute; reflexivity).
  destruct (proj1 (suite_passes_iff_every_execution_succeeds Demo.host
                     Demo.validator "test-config.yaml" (Text "suite")
                     Demo.suite Demo.configured eq_refl eq_refl) _ _ E)
    as (all_results & w1 & _ & Hcases & Hb & _).
  do 2 eexists. exists all_results.
  split; [exact E |]. split; [reflexivity |].
  split; [exact Hb | exact Hcases].
Defined.

(** X10 on the configuration with a setup command and no tests. *)
Lemma empty_suite_passes_witness :
  exists w1 w2,
    run_test_suite Example.host (init default_cli) (config_file [])
      Example.with_empty_suite = Return true w1
    /\ main Example.host [] Example.with_empty_suite = Return 0 w2.
Proof.
  destruct (empty_suite_passes Example.host [] (Text "empty")
              Example.empty_suite Example.with_empty_suite
              eq_refl eq_refl eq_refl)
    as (w1 & Hsuite & _ & Hfiles & Hmain).
  destruct Hmain as [w2 Hmain].
  { rewrite Hfiles. discriminate. }
  exists w1, w2. split; [exact Hsuite | exact Hmain].
Defined.

(** X11 on a configuration the loader rejects. *)
Lemma unloadable_config_leaves_no_report_witness :
  files Example.with_bad_config (config_file []) <> Absent
  /\ main Demo.host [] Example.with_bad_config
     = Raise (YAMLError "could not load") Example.with_bad_config
  /\ files Example.with_bad_config "test-results.json" = Absent.
Proof.
  assert (Hexists : files Example.with_bad_config (config_file []) <> Absent)
    by discriminate.
  split; [exact Hexists |]. split; [| reflexivity].
  exact (proj2 (proj2 (unloadable_config_leaves_no_report Demo.host []
                         Example.with_bad_config
                         (YAMLError "could not load")
                         Example.with_bad_config Hexists eq_refl))).
Defined.

(** * Properties of the fixture generator *)

Module PdfFacts.

Import PdfGen.

(** ** The temporary file name *)

Lemma string_length_append (a b : string) :
  String.length (a ++ b) = (String.length a + String.length b)%nat.
Proof. induction a as [| c a IH]; simpl; [reflexivity | now rewrite IH]. Qed.

Lemma prefix_length (a b : string) :
  String.prefix a b = true -> (String.length a <= String.length b)%nat.
Proof.
  revert b. induction a as [| c a IH]; intros b H; simpl; [lia |].
  destruct b as [| c' b]; simpl in H; [discriminate |].
  destruct (ascii_dec c c'); [| discriminate].
  apply IH in H. simpl. lia.
Qed.

Lemma contains_cons sub c rest :
  contains sub (String c rest)
  = String.prefix sub (String c rest) || contains sub rest.
Proof. reflexivity. Qed.

Lemma replace_from_length old new s skip :
  old <> EmptyString ->
  (String.length (replace_from old new s skip)
   + Nat.min skip (String.length s)
   + String.length old * occurrences_from old s skip
   = String.length s + String.length new * occurrences_from old s skip)%nat.
Proof.
  intros Hold.
  assert (Hpos : (1 <= String.length old)%nat)
    by (destruct old; [contradiction | simpl; lia]).
  revert skip. induction s as [| c rest IH]; intros skip.
  - simpl. rewrite Nat.min_0_r. lia.
  - destruct skip as [| k].
    + cbn [replace_from occurrences_from].
      destruct (String.prefix old (String c rest)) eqn:Hp.
      * apply prefix_length in Hp. cbn [String.length] in Hp |- *.
        rewrite string_length_append.
        specialize (IH (String.length old - 1)%nat).
        rewrite Nat.min_l in IH by lia.
        rewrite !Nat.mul_succ_r. lia.
      * specialize (IH 0%nat). cbn [String.length]. simpl Nat.min in *. lia.
    + cbn [replace_from occurrences_from String.length].
      specialize (IH k). simpl Nat.min. lia.
Qed.

Lemma replace_without_occurrence old new s :
  contains old s = false -> replace old new s = s.
Proof.
  unfold replace. induction s as [| c rest IH]; [reflexivity |].
  rewrite contains_cons. intros H. apply orb_false_iff in H as [Hp Hc].
  cbn [replace_from]. rewrite Hp. now rewrite IH.
Qed.

Lemma occurrence_found old s :
  old <> EmptyString ->
  contains old s = true -> (1 <= occurrences old s)%nat.
Proof.
  intros Hold. unfold occurrences. induction s as [| c rest IH].
  - destruct old; [contradiction | discriminate].
  - rewrite contains_cons. cbn [occurrences_from].
    destruct (String.prefix old (String c rest)); [lia | exact IH].
Qed.

(** X15.  The temporary name is the file name with every occurrence of
    ".pdf" replaced by "_temp.pdf", not only a final extension: it is
    five characters longer per occurrence, it differs from the file name
    when the name contains ".pdf", and it is the file name itself when
    the name contains none. *)
Theorem temp_file_name (filename : string) :
  String.length (temp_file filename)
  = (String.length filename + 5 * occurrences ".pdf" filename)%nat
  /\ (contains ".pdf" filename = false -> temp_file filename = filename)
  /\ (contains ".pdf" filename = true -> temp_file filename <> filename).
Proof.
  assert (Hlen : String.length (temp_file filename)
                 = (String.length filename
                    + 5 * occurrences ".pdf" filename)%nat).
  { pose proof (replace_from_length ".pdf" "_temp.pdf" filename 0
                  ltac:(discriminate)) as H.
    unfold temp_file, replace, occurrences.
    change (String.length ".pdf") with 4%nat in H.
    change (String.length "_temp.pdf") with 9%nat in H.
    simpl Nat.min in H. lia. }
  split; [exact Hlen |]. split.
  - apply replace_without_occurrence.
  - intros Hc Heq. rewrite Heq in Hlen.
    apply (occurrence_found ".pdf" filename ltac:(discriminate)) in Hc. lia.
Qed.

(** ** Writing the drawings *)

Lemma lookup (w : World) (path : string) (n : node) (q : string) :
  files (with_file w path n) q = if String.eqb q path then n else files w q.
Proof. reflexivity. Qed.

Lemma files_say (l : line) (w : World) : files (say l w) = files w.
Proof. reflexivity. Qed.

Lemma write_outcome path d w :
  write path d w = Return tt (with_file w path (File d))
  \/ exists e, write path d w = Raise e w.
Proof.
  unfold write. destruct (files w path); [| eauto | eauto].
  destruct (parent_error w path); eauto.
Qed.

(** What [add_title_block] leaves when it returns. *)
Lemma add_title_block_returns
  filename drawing_number project_number revision w w' :
  add_title_block filename drawing_number project_number revision w
  = Return tt w' ->
  files w' filename
  = File (Drawn ARCH_D
            (title_block drawing_number project_number revision (today w)))
  /\ (temp_file filename <> filename ->
      files w' (temp_file filename) = Absent)
  /\ (forall p, p <> filename -> p <> temp_file filename ->
                files w' p = files w p).
Proof.
  unfold add_title_block, bind.
  set (d := Drawn ARCH_D
              (title_block drawing_number project_number revision (today w))).
  set (t := temp_file filename).
  destruct (write_outcome t d w) as [-> | [x ->]]; [| discriminate].
  set (w2 := with_file w t (File d)).
  assert (Ht : files w2 t = File d)
    by (unfold w2; rewrite lookup; now rewrite String.eqb_refl).
  assert (Hmoved :
            w' = with_file (with_file w2 t Absent) filename (File d) ->
            files w' filename = File d
            /\ (t <> filename -> files w' t = Absent)
            /\ (forall p, p <> filename -> p <> t -> files w' p = files w p)).
  { intros ->. rewrite lookup, String.eqb_refl. split; [reflexivity |].
    split.
    - intros Hne. rewrite !lookup.
      destruct (String.eqb_spec t filename); [contradiction |].
      now rewrite String.eqb_refl.
    - intros p Hf Hp. unfold w2. rewrite !lookup.
      destruct (String.eqb_spec p filename); [contradiction |].
      destruct (String.eqb_spec p t); [contradiction | reflexivity]. }
  unfold rename. rewrite Ht.
  destruct (files w2 filename).
  - destruct (parent_error w2 filename); [discriminate |].
    intros H. injection H as <-. now apply Hmoved.
  - discriminate.
  - intros H. injection H as <-. now apply Hmoved.
Qed.

(** X16.  When [add_title_block] returns, [filename] holds the canvas
    with the title block and nothing of what it held before, the
    temporary file is gone, and no other path has changed.  When it
    raises, either nothing was written or the temporary file is left
    behind with the title block in it. *)
Theorem add_title_block_result
  (filename drawing_number project_number revision : string) (w : World) :
  (forall w',
     add_title_block filename drawing_number project_number revision w
     = Return tt w' ->
     files w' filename
     = File (Drawn ARCH_D
               (title_block drawing_number project_number revision (today w)))
     /\ (temp_file filename <> filename ->
         files w' (temp_file filename) = Absent)
     /\ (forall p, p <> filename -> p <> temp_file filename ->
                   files w' p = files w p))
  /\ (forall e w',
        add_title_block filename drawing_number project_number revision w
        = Raise e w' ->
        w' = w
        \/ (files w' (temp_file filename)
            = File (Drawn ARCH_D
                      (title_block drawing_number project_number revision
                         (today w)))
            /\ forall p, p <> temp_file filename -> files w' p = files w p)).
Proof.
  split; [intros w'; apply add_title_block_returns |].
  unfold add_title_block, bind.
  set (d := Drawn ARCH_D
              (title_block drawing_number project_number revision (today w))).
  set (t := temp_file filename).
  destruct (write_outcome t d w) as [-> | [x ->]].
  2: { intros e w' H. injection H as _ <-. now left. }
  set (w2 := with_file w t (File d)).
  assert (Ht : files w2 t = File d)
    by (unfold w2; rewrite lookup; now rewrite String.eqb_refl).
  assert (Hframe2 : forall p, p <> t -> files w2 p = files w p).
  { intros p Hp. unfold w2. rewrite lookup.
    destruct (String.eqb_spec p t); [contradiction | reflexivity]. }
  unfold rename. rewrite Ht. intros e w' H. right.
  destruct (files w2 filename).
  - destruct (parent_error w2 filename); [| discriminate].
    injection H as _ <-. split; [exact Ht | exact Hframe2].
  - injection H as _ <-. split; [exact Ht | exact Hframe2].
  - discriminate.
Qed.

(** X17.  Whenever [create_construction_drawing] returns, the file it
    leaves at [filename] holds the title block alone: the document built
    from the story (title, notes, room schedule) has been replaced by the
    renamed canvas.  No temporary file remains and no other path has
    changed. *)
Theorem construction_drawing_keeps_only_title_block
  (filename drawing_number project_number revision : string)
  (w w' : World) :
  create_construction_drawing filename drawing_number project_number
    revision w = Return tt w' ->
  files w' filename
  = File (Drawn ARCH_D
            (title_block drawing_number project_number revision (today w)))
  /\ files w' filename <> File (Built ARCH_D story)
  /\ (temp_file filename <> filename ->
      files w' (temp_file filename) = Absent)
  /\ (forall p, p <> filename -> p <> temp_file filename ->
                files w' p = files w p).
Proof.
  unfold create_construction_drawing, bind.
  destruct (write_outcome filename (Built ARCH_D story) w) as [-> | [x ->]];
    [| discriminate].
  intros H.
  destruct (add_title_block_returns filename drawing_number project_number
              revision (with_file w filename (File (Built ARCH_D story)))
              w' H) as (Hfile & Htemp & Hframe).
  simpl today in Hfile.
  split; [exact Hfile |]. split; [rewrite Hfile; discriminate |].
  split; [exact Htemp |].
  intros p Hf Ht. rewrite (Hframe p Hf Ht), lookup.
  destruct (String.eqb_spec p filename); [contradiction | reflexivity].
Qed.

(** ** The whole fixture suite *)

Lemma parent_error_none w path dir :
  dirname path = Some dir ->
  dir <> EmptyString ->
  files w dir = Directory ->
  parent_error w path = None.
Proof.
  unfold parent_error. intros -> Hne Hdir.
  destruct dir; [contradiction |]. now rewrite Hdir.
Qed.

Lemma write_in_directory path dir d w :
  dirname path = Some dir ->
  dir <> EmptyString ->
  files w dir = Directory ->
  files w path <> Directory ->
  write path d w = Return tt (with_file w path (File d)).
Proof.
  intros Hdn Hne Hdir Hnode. unfold write.
  destruct (files w path); [| contradiction | reflexivity].
  now rewrite (parent_error_none w path dir Hdn Hne Hdir).
Qed.

(** [create_construction_drawing] succeeds in an existing directory when
    neither the file name nor the temporary name is a directory. *)
Lemma create_construction_drawing_succeeds
  filename drawing_number project_number revision dir w :
  dirname filename = Some dir ->
  dirname (temp_file filename) = Some dir ->
  dir <> EmptyString ->
  files w dir = Directory ->
  files w filename <> Directory ->
  files w (temp_file filename) <> Directory ->
  create_construction_drawing filename drawing_number project_number
    revision w
  = Return tt
      (with_file
         (with_file
            (with_file (with_file w filename (File (Built ARCH_D story)))
               (temp_file filename)
               (File (Drawn ARCH_D
                        (title_block drawing_number project_number revision
                           (today w)))))
            (temp_file filename) Absent)
         filename
         (File (Drawn ARCH_D
                  (title_block drawing_number project_number revision
                     (today w))))).
Proof.
  intros Hdn Hdt Hne Hdir Hf Ht.
  assert (Hdf : dir <> filename) by (intros ->; now rewrite Hdir in Hf).
  unfold create_construction_drawing, bind.
  rewrite (write_in_directory filename dir _ w Hdn Hne Hdir Hf).
  unfold add_title_block, bind. simpl today.
  rewrite (write_in_directory (temp_file filename) dir).
  - unfold rename. rewrite lookup, String.eqb_refl. rewrite !lookup.
    destruct (String.eqb filename (temp_file filename));
      [reflexivity |]. now rewrite String.eqb_refl.
  - exact Hdt.
  - exact Hne.
  - rewrite lookup. destruct (String.eqb_spec dir filename);
      [contradiction | exact Hdir].
  - rewrite lookup. destruct (String.eqb (temp_file filename) filename);
      [discriminate | exact Ht].
Qed.

Lemma bind_step {A B} (m : M A) (k : A -> M B) w a w1 :
  m w = Return a w1 -> bind m k w = k a w1.
Proof. unfold bind. now intros ->. Qed.

Lemma mkdir_existing path w :
  files w path = Directory -> mkdir path w = Return tt w.
Proof. unfold mkdir. now intros ->. Qed.

Lemma mkdir_new_top path w :
  files w path = Absent ->
  dirname path = None ->
  mkdir path w = Return tt (with_file w path Directory).
Proof. unfold mkdir, parent_error. now intros -> ->. Qed.

Lemma mkdir_new_in path dir w :
  files w path = Absent ->
  dirname path = Some dir ->
  dir <> EmptyString ->
  files w dir = Directory ->
  mkdir path w = Return tt (with_file w path Directory).
Proof.
  intros Hnode Hdn Hne Hdir. unfold mkdir. rewrite Hnode.
  now rewrite (parent_error_none w path dir Hdn Hne Hdir).
Qed.

Lemma list_files_result found w :
  list_files found w = Return tt (listed found w).
Proof.
  revert w. induction found as [| f rest IH]; intros w; [reflexivity |].
  simpl. unfold bind, print. apply IH.
Qed.

Lemma listed_keeps found w :
  files (listed found w) = files w /\ today (listed found w) = today w.
Proof.
  revert w. induction found as [| f rest IH]; intros w; simpl;
    [split; reflexivity |].
  destruct (IH (say (Listed f) w)) as [-> ->]. split; reflexivity.
Qed.

(** Looks a concrete path up in a world built by [with_file]. *)
Ltac look :=
  repeat (rewrite lookup; simpl (String.eqb _ _); cbv iota);
  try assumption; try reflexivity; try discriminate.

(** One step of the suite: a directory that exists or is made, a
    drawing, the scanned file, a printed line. *)
Ltac suite_step :=
  erewrite bind_step;
  [| first
       [ apply mkdir_existing; solve [look]
       | apply mkdir_new_top; [solve [look] | reflexivity]
       | eapply mkdir_new_in;
         [solve [look] | reflexivity | discriminate | solve [look]]
       | eapply create_construction_drawing_succeeds;
         [ reflexivity | reflexivity | discriminate
         | solve [look] | solve [look] | solve [look] ]
       | eapply write_in_directory;
         [reflexivity | discriminate | solve [look] | solve [look]]
       | reflexivity ] ];
  cbv beta.

(** The four [mkdir] calls: afterwards the four directories exist and
    nothing else has changed. *)
Lemma make_dirs (k : M unit) (w : World) :
  Forall (fun p => forall d, files w p <> File d) suite_dirs ->
  exists w4,
    (mkdir "test-data" ;;;
     mkdir "test-data/drawings" ;;;
     mkdir "test-data/scanned" ;;;
     mkdir "test-data/mixed" ;;; k)%pdf w = k w4
    /\ files w4 "test-data" = Directory
    /\ files w4 "test-data/drawings" = Directory
    /\ files w4 "test-data/scanned" = Directory
    /\ files w4 "test-data/mixed" = Directory
    /\ (forall q, ~ In q suite_dirs -> files w4 q = files w q)
    /\ today w4 = today w
    /\ console w4 = console w.
Proof.
  intros Hdirs.
  assert (Hd : forall p, In p suite_dirs -> forall d, files w p <> File d)
    by (exact (proj1 (Forall_forall _ _) Hdirs)).
  assert (D1 := Hd "test-data" ltac:(simpl; tauto)).
  assert (D2 := Hd "test-data/drawings" ltac:(simpl; tauto)).
  assert (D3 := Hd "test-data/scanned" ltac:(simpl; tauto)).
  assert (D4 := Hd "test-data/mixed" ltac:(simpl; tauto)).
  clear Hd Hdirs.
  destruct (files w "test-data") eqn:E1; [| | now contradiction (D1 d)].
  all: destruct (files w "test-data/drawings") eqn:E2;
    [| | now contradiction (D2 d)].
  all: destruct (files w "test-data/scanned") eqn:E3;
    [| | now contradiction (D3 d)].
  all: destruct (files w "test-data/mixed") eqn:E4;
    [| | now contradiction (D4 d)].
  all: eexists; split; [do 4 suite_step; reflexivity |].
  all: repeat (split; [solve [look] |]); try solve [look].
  all: (split; [| split; reflexivity]).
  all: intros q Hq; repeat rewrite lookup;
    repeat match goal with
           | |- context [String.eqb q ?p] =>
               destruct (String.eqb_spec q p);
               [exfalso; apply Hq; subst q; simpl; tauto |]
           end; reflexivity.
Qed.

(** What a run of [create_test_suite] leaves. *)
Lemma create_test_suite_spec
  (rglob : World -> string -> list string) (w : World) :
  suite_can_run w ->
  exists w',
    create_test_suite rglob w = Return tt w'
    /\ Forall (fun p => files w' p = Directory) suite_dirs
    /\ files w' "test-data/drawings/floor-plan-A101.pdf"
       = File (Drawn ARCH_D (title_block "A-101" "2024-001" "A" (today w)))
    /\ files w' "test-data/drawings/site-plan-C100.pdf"
       = File (Drawn ARCH_D (title_block "C-100" "2024-001" "B" (today w)))
    /\ files w' "test-data/drawings/details-A201.pdf"
       = File (Drawn ARCH_D (title_block "A-201" "2024-001" "A" (today w)))
    /\ files w' "test-data/scanned/legacy-drawing-scan.pdf"
       = File (Drawn letter scanned_ops)
    /\ Forall (fun p => files w' p = Absent) suite_temps
    /\ (forall q,
          ~ In q (suite_dirs ++ suite_files ++ suite_temps) ->
          files w' q = files w q)
    /\ today w' = today w.
Proof.
  intros [Hdirs Hfiles].
  assert (Hf : forall p, In p (suite_files ++ suite_temps) ->
                         files w p <> Directory)
    by (exact (proj1 (Forall_forall _ _) Hfiles)).
  unfold create_test_suite; cbv zeta; unfold join; simpl append.
  match goal with
  | |- exists w', (_ ;;; _ ;;; _ ;;; _ ;;; ?k)%pdf w = _ /\ _ =>
      destruct (make_dirs k w Hdirs)
        as (w4 & -> & G1 & G2 & G3 & G4 & Hframe & Htoday & Hconsole)
  end.
  assert (Hf4 : forall p, In p (suite_files ++ suite_temps) ->
                          files w4 p <> Directory).
  { intros p Hin. rewrite Hframe; [now apply Hf |].
    simpl in Hin. intros Hd. simpl in Hd.
    repeat match goal with
           | H : _ \/ _ |- _ => destruct H
           | H : False |- _ => destruct H
           end; subst p; discriminate. }
  assert (F1 := Hf4 "test-data/drawings/floor-plan-A101.pdf"
                  ltac:(simpl; tauto)).
  assert (F2 := Hf4 "test-data/drawings/site-plan-C100.pdf"
                  ltac:(simpl; tauto)).
  assert (F3 := Hf4 "test-data/drawings/details-A201.pdf"
                  ltac:(simpl; tauto)).
  assert (F4 := Hf4 "test-data/scanned/legacy-drawing-scan.pdf"
                  ltac:(simpl; tauto)).
  assert (T1 := Hf4 "test-data/drawings/floor-plan-A101_temp.pdf"
                  ltac:(simpl; tauto)).
  assert (T2 := Hf4 "test-data/drawings/site-plan-C100_temp.pdf"
                  ltac:(simpl; tauto)).
  assert (T3 := Hf4 "test-data/drawings/details-A201_temp.pdf"
                  ltac:(simpl; tauto)).
  eexists. split; [do 7 suite_step; apply list_files_result |].
  match goal with
  | |- context [listed ?l ?W] =>
      destruct (listed_keeps l W) as [Hkf Hkt];
      rewrite !Hkf, Hkt; clear Hkf Hkt
  end.
  split; [repeat constructor; solve [look] |].
  do 3 (split; [look; simpl today; now rewrite Htoday |]).
  split; [solve [look] |].
  split; [repeat constructor; solve [look] |].
  split; [| simpl today; exact Htoday].
  intros q Hq.
  repeat match goal with
         | |- context [temp_file ?f] =>
             let v := eval vm_compute in (temp_file f) in
             change (temp_file f) with v
         end.
  repeat (rewrite files_say || rewrite lookup).
  repeat match goal with
         | |- context [String.eqb q ?p] =>
             destruct (String.eqb_spec q p);
             [exfalso; apply Hq; subst q; simpl; tauto |]
         end.
  apply Hframe. intros Hd. apply Hq. apply in_or_app. now left.
Qed.

(** X18.  The script reaches [create_test_suite] only when its imports
    succeed: when they fail, as they do without reportlab and with a
    reportlab whose [pagesizes] lacks [ARCH_D], it prints the error line
    and exits with status 1, and no path is touched.  When they succeed,
    on a filesystem where no regular file sits at one of the four
    directory paths and no directory at one of the file or temporary
    paths, [create_test_suite] returns and the script exits with 0:
    afterwards the four directories exist, the three drawings hold the
    title block with their own drawing number, project number and
    revision and the date of the run, the scanned file holds the scanned
    drawing, no temporary file is left, and every other path is as
    before.  A later run on the files so left, on whatever day, returns as
    well and changes the three drawings only, which then carry the date
    of that run: on the same day every path is as the first run left
    it. *)
Theorem create_test_suite_result
  (rglob : World -> string -> list string) (w : World) :
  script false rglob w = Return 1 (say ReportlabNotInstalled w)
  /\ (suite_can_run w ->
      exists w1,
        create_test_suite rglob w = Return tt w1
        /\ script true rglob w = Return 0 w1
        /\ Forall (fun p => files w1 p = Directory) suite_dirs
        /\ files w1 "test-data/drawings/floor-plan-A101.pdf"
           = File (Drawn ARCH_D
                     (title_block "A-101" "2024-001" "A" (today w)))
        /\ files w1 "test-data/drawings/site-plan-C100.pdf"
           = File (Drawn ARCH_D
                     (title_block "C-100" "2024-001" "B" (today w)))
        /\ files w1 "test-data/drawings/details-A201.pdf"
           = File (Drawn ARCH_D
                     (title_block "A-201" "2024-001" "A" (today w)))
        /\ files w1 "test-data/scanned/legacy-drawing-scan.pdf"
           = File (Drawn letter scanned_ops)
        /\ Forall (fun p => files w1 p = Absent) suite_temps
        /\ (forall q,
              ~ In q (suite_dirs ++ suite_files ++ suite_temps) ->
              files w1 q = files w q)
        /\ forall later,
             (forall p, files later p = files w1 p) ->
             exists w2,
               create_test_suite rglob later = Return tt w2
               /\ script true rglob later = Return 0 w2
               /\ files w2 "test-data/drawings/floor-plan-A101.pdf"
                  = File (Drawn ARCH_D
                            (title_block "A-101" "2024-001" "A"
                               (today later)))
               /\ files w2 "test-data/drawings/site-plan-C100.pdf"
                  = File (Drawn ARCH_D
                            (title_block "C-100" "2024-001" "B"
                               (today later)))
               /\ files w2 "test-data/drawings/details-A201.pdf"
                  = File (Drawn ARCH_D
                            (title_block "A-201" "2024-001" "A"
                               (today later)))
               /\ (forall p,
                     p <> "test-data/drawings/floor-plan-A101.pdf" ->
                     p <> "test-data/drawings/site-plan-C100.pdf" ->
                     p <> "test-data/drawings/details-A201.pdf" ->
                     files w2 p = files w1 p)
               /\ (today later = today w ->
                   forall p, files w2 p = files w1 p)).
Proof.
  split; [reflexivity |].
  intros Hcan.
  destruct (create_test_suite_spec rglob w Hcan)
    as (w1 & Hrun1 & Hd1 & A1 & B1 & C1 & S1 & Ht1 & Hframe1 & Htoday).
  exists w1. split; [exact Hrun1 |].
  split; [unfold script, bind; now rewrite Hrun1 |].
  repeat (split; [assumption |]).
  intros later Hsame.
  assert (Hcan1 : suite_can_run later).
  { split.
    - apply Forall_forall. intros p Hin d. rewrite Hsame.
      rewrite (proj1 (Forall_forall _ _) Hd1 p Hin). discriminate.
    - apply Forall_forall. intros p Hin. rewrite Hsame.
      apply in_app_or in Hin as [Hin | Hin].
      + simpl in Hin.
        repeat match goal with
               | H : _ \/ _ |- _ => destruct H
               | H : False |- _ => destruct H
               end; subst p;
          [rewrite A1 | rewrite B1 | rewrite C1 | rewrite S1]; discriminate.
      + rewrite (proj1 (Forall_forall _ _) Ht1 p Hin). discriminate. }
  destruct (create_test_suite_spec rglob later Hcan1)
    as (w2 & Hrun2 & Hd2 & A2 & B2 & C2 & S2 & Ht2 & Hframe2 & _).
  exists w2. split; [exact Hrun2 |].
  split; [unfold script, bind; now rewrite Hrun2 |].
  do 3 (split; [assumption |]).
  assert (Hothers : forall p,
            p <> "test-data/drawings/floor-plan-A101.pdf" ->
            p <> "test-data/drawings/site-plan-C100.pdf" ->
            p <> "test-data/drawings/details-A201.pdf" ->
            files w2 p = files w1 p).
  { intros p Ha Hb Hc.
    destruct (in_dec string_dec p (suite_dirs ++ suite_files ++ suite_temps))
      as [Hin | Hout]; [| rewrite <- Hsame; now apply Hframe2].
    apply in_app_or in Hin as [Hin | Hin].
    - rewrite (proj1 (Forall_forall _ _) Hd2 p Hin).
      now rewrite (proj1 (Forall_forall _ _) Hd1 p Hin).
    - apply in_app_or in Hin as [Hin | Hin].
      + simpl in Hin.
        repeat match goal with
               | H : _ \/ _ |- _ => destruct H
               | H : False |- _ => destruct H
               end; subst p; try contradiction.
        now rewrite S2, S1.
      + rewrite (proj1 (Forall_forall _ _) Ht2 p Hin).
        now rewrite (proj1 (Forall_forall _ _) Ht1 p Hin). }
  split; [exact Hothers |].
  intros Hday p.
  destruct (string_dec p "test-data/drawings/floor-plan-A101.pdf") as [-> |];
    [now rewrite A2, A1, Hday |].
  destruct (string_dec p "test-data/drawings/site-plan-C100.pdf") as [-> |];
    [now rewrite B2, B1, Hday |].
  destruct (string_dec p "test-data/drawings/details-A201.pdf") as [-> |];
    [now rewrite C2, C1, Hday |].
  now apply Hothers.
Qed.

(** X19.  The loop over the scanned notes draws one line per note, in
    order, all at x = 100, the k-th (from 0) at height [y_pos - 20 k], and
    leaves [y_pos] lowered by 20 per note. *)
Theorem notes_are_drawn_downwards (notes : list string) (y_pos : Z) :
  (forall k,
     nth_error (fst (draw_notes notes y_pos)) k
     = option_map
         (fun note =>
            DrawString (Int 100) (Int (y_pos - 20 * Z.of_nat k)) note)
         (nth_error notes k))
  /\ length (fst (draw_notes notes y_pos)) = length notes
  /\ snd (draw_notes notes y_pos) = y_pos - 20 * len notes.
Proof.
  revert y_pos. induction notes as [| note rest IH]; intros y_pos.
  - split; [| split]; [intros [| k] | |]; simpl; try reflexivity.
    unfold len. simpl. lia.
  - destruct (IH (y_pos - 20)) as (Hnth & Hlen & Hend).
    simpl draw_notes.
    destruct (draw_notes rest (y_pos - 20)) as [ops y_end] eqn:Hd.
    simpl fst in *. simpl snd in *. split; [| split].
    + intros [| k]; cbn [nth_error option_map].
      * do 3 f_equal. lia.
      * rewrite Hnth.
        destruct (nth_error rest k); cbn [option_map]; [| reflexivity].
        do 3 f_equal. lia.
    + simpl. now rewrite Hlen.
    + rewrite Hend. unfold len. simpl length. lia.
Qed.

(** ** The theorems at work on an empty filesystem *)

(** X17 on a drawing written in the current directory. *)
Lemma construction_drawing_keeps_only_title_block_witness :
  exists w',
    create_construction_drawing "plan.pdf" "A-1" "2024-001" "C" empty
    = Return tt w'
    /\ files w' "plan.pdf"
       = File (Drawn ARCH_D (title_block "A-1" "2024-001" "C" "09/02/2025"))
    /\ files w' "plan_temp.pdf" = Absent.
Proof.
  eassert (E : create_construction_drawing "plan.pdf" "A-1" "2024-001" "C"
                 empty = Return tt _)
    by (vm_compute; reflexivity).
  eexists. split; [exact E |].
  destruct (construction_drawing_keeps_only_title_block
              "plan.pdf" "A-1" "2024-001" "C" empty _ E)
    as (Hfile & _ & Htemp & _).
  split; [exact Hfile |]. apply Htemp. discriminate.
Defined.

Lemma empty_can_run : suite_can_run empty.
Proof. split; repeat constructor; discriminate. Defined.

(** X18 on the empty filesystem, with a second run on the next day. *)
Lemma create_test_suite_result_witness :
  suite_can_run empty
  /\ script false no_walk empty
     = Return 1 (mkWorld (fun _ => Absent) "09/02/2025"
                   [ReportlabNotInstalled])
  /\ exists w1 w2,
       script true no_walk empty = Return 0 w1
       /\ files w1 "test-data/mixed" = Directory
       /\ files w1 "test-data/drawings/site-plan-C100.pdf"
          = File (Drawn ARCH_D
                    (title_block "C-100" "2024-001" "B" "09/02/2025"))
       /\ files w1 "test-data/drawings/site-plan-C100_temp.pdf" = Absent
       /\ script true no_walk (mkWorld (files w1) "09/03/2025" [])
          = Return 0 w2
       /\ files w2 "test-data/drawings/site-plan-C100.pdf"
          = File (Drawn ARCH_D
                    (title_block "C-100" "2024-001" "B" "09/03/2025"))
       /\ files w2 "test-data/scanned/legacy-drawing-scan.pdf"
          = files w1 "test-data/scanned/legacy-drawing-scan.pdf".
Proof.
  split; [exact empty_can_run |].
  destruct (create_test_suite_result no_walk empty) as [Hguard Hsuite].
  split; [exact Hguard |].
  destruct (Hsuite empty_can_run)
    as (w1 & _ & Hrun & Hdirs & _ & Hsite & _ & _ & Htemps & _ & Hlater).
  destruct (Hlater (mkWorld (files w1) "09/03/2025" []) (fun p => eq_refl))
    as (w2 & _ & Hagain & _ & Hsite2 & _ & Hothers & _).
  exists w1, w2. split; [exact Hrun |].
  split; [| split; [exact Hsite |]].
  - exact (proj1 (Forall_forall _ _) Hdirs "test-data/mixed"
             ltac:(simpl; tauto)).
  - split; [| split; [exact Hagain | split; [exact Hsite2 |]]].
    + exact (proj1 (Forall_forall _ _) Htemps
               "test-data/drawings/site-plan-C100_temp.pdf"
               ltac:(simpl; tauto)).
    + apply Hothers; discriminate.
Defined.

End PdfFacts.
